(** * arbnode/block_challenge_backend.go: the block challenge backend

    A shallow embedding of the Go file [arbnode/block_challenge_backend.go]
    and the properties of its global-state commitment, batch locator, step
    resolver and range narrowing.

    Conventions.
    - A Go [uint64] is a [Z]; every addition and subtraction of the source is
      written with its wrap-around modulo 2^64 ([U64.add], [U64.sub]).
    - A Go [byte] is a [Byte.byte], a [[]byte] a [list byte].
    - A Go function that returns [(T, error)] returns an [outcome T]; a panic
      and a loop that never returns are outcomes of their own.
    - Every call into an external collaborator (block chain, inbox tracker,
      challenge contract) is recorded, in order, in the list of queries that
      comes with the outcome.
    - Methods that only read their receiver take it as an argument; [SetRange],
      which assigns to fields of its receiver, returns the receiver after the
      call as well.
    - The [context.Context] argument is only handed on to the collaborators by
      the source; a cancelled call is an error returned by the collaborator.
    - [IssueOneStepProof] submits a transaction to the challenge contract;
      what it does to the outside is a list of calls, the queries and the
      transaction. *)

From Stdlib Require Import ZArith List Lia Bool String Ascii.
From Stdlib.Strings Require Import Byte.
From Stdlib Require Import Eqdep_dec.
Import ListNotations.
Open Scope Z_scope.

(** ** uint64 arithmetic *)

Module U64.
Definition modulus : Z := 2 ^ 64.
Definition MaxUint64 : Z := 2 ^ 64 - 1.
Definition wrap (x : Z) : Z := x mod modulus.
Definition add (x y : Z) : Z := wrap (x + y).
Definition sub (x y : Z) : Z := wrap (x - y).
Definition in_range (x : Z) : Prop := 0 <= x < modulus.
End U64.

(** ** Bytes and hashes *)

(** Go's conversion [byte(x)]: the low eight bits of [x]. *)
Definition byte_of_Z (x : Z) : byte :=
  match Byte.of_N (Z.to_N (x mod 256)) with
  | Some b => b
  | None => x00
  end.

Definition Z_of_byte (b : byte) : Z := Z.of_N (Byte.to_N b).

(** [binary.BigEndian.PutUint64(data, x)] on a fresh 8-byte slice:
    [data[0] = byte(x >> 56)], ..., [data[7] = byte(x)]. *)
Definition u64ToBe (x : Z) : list byte :=
  [ byte_of_Z (Z.shiftr x 56); byte_of_Z (Z.shiftr x 48);
    byte_of_Z (Z.shiftr x 40); byte_of_Z (Z.shiftr x 32);
    byte_of_Z (Z.shiftr x 24); byte_of_Z (Z.shiftr x 16);
    byte_of_Z (Z.shiftr x 8);  byte_of_Z x ].

(** The conversion [[]byte(s)] of a string literal. *)
Definition bytes_of_string (s : string) : list byte := list_byte_of_string s.

Module common.
(** [common.Hash] is [[32]byte]. *)
Record Hash : Type := mkHash { Bytes : list byte; Bytes_length : List.length Bytes = 32%nat }.

(** The zero value [common.Hash{}]. *)
Definition zero : Hash := mkHash (repeat x00 32) eq_refl.
End common.

(** ** Big-endian encoding, as the specification words it *)

(** The [n]-byte big-endian encoding of [x]: most significant byte first. *)
Fixpoint big_endian (n : nat) (x : Z) : list byte :=
  match n with
  | O => []
  | S n' => big_endian n' (x / 256) ++ [byte_of_Z (x mod 256)]
  end.

(** The number a big-endian byte string denotes. *)
Definition be_value (bs : list byte) : Z :=
  fold_left (fun acc b => acc * 256 + Z_of_byte b) bs 0.

(** ** Errors, outcomes and the record of external queries *)

(** Go [error] values: [errors.New], [errors.Wrap], and the errors the
    external collaborators hand back. *)
Inductive error : Type :=
| errors_New (msg : string)
| errors_Wrap (cause : error) (msg : string)
| collaborator_error (msg : string).

(** What a call can come to: a normal return, a returned error, a panic, or
    a loop that has not returned when the fuel is used up. *)
Inductive outcome (A : Type) : Type :=
| Ret (a : A)
| Fail (e : error)
| Panic (msg : string)
| Diverge.
Arguments Ret {A} a.
Arguments Fail {A} e.
Arguments Panic {A} msg.
Arguments Diverge {A}.

(** The calls the backend makes into its collaborators. *)
Inductive Query : Type :=
| QNewBlockChallenge (addr : list byte)
| QGetStartGlobalState
| QGetEndGlobalState
| QGetBlockByHash (h : common.Hash)
| QGetBlockByNumber (n : Z)
| QGetBatchMetadata (seqNum : Z).

(** A computation that reads its collaborators: its outcome and the queries
    it issued, oldest first. *)
Definition Eff (A : Type) : Type := (outcome A * list Query)%type.

Class Monad (M : Type -> Type) : Type := {
  mret : forall {A : Type}, A -> M A;
  mbind : forall {A B : Type}, M A -> (A -> M B) -> M B
}.

Declare Scope monad_scope.
Delimit Scope monad_scope with monad.
Notation "x <- m ;; k" := (mbind m (fun x => k))
  (at level 61, m at next level, right associativity) : monad_scope.
Notation "' p <- m ;; k" := (mbind m (fun x => match x with p => k end))
  (at level 61, p pattern, m at next level, right associativity) : monad_scope.
Notation "m ;;; k" := (mbind m (fun _ => k))
  (at level 61, right associativity) : monad_scope.
Open Scope monad_scope.

Definition Eff_bind {A B : Type} (m : Eff A) (f : A -> Eff B) : Eff B :=
  match m with
  | (Ret a, q) => let (r, q') := f a in (r, q ++ q')
  | (Fail e, q) => (Fail e, q)
  | (Panic msg, q) => (Panic msg, q)
  | (Diverge, q) => (Diverge, q)
  end.

#[export] Instance Eff_Monad : Monad Eff := {
  mret := fun A a => (Ret a, []);
  mbind := @Eff_bind
}.

(** [return ..., err] *)
Definition fail {A : Type} (e : error) : Eff A := (Fail e, []).
(** [panic(msg)] *)
Definition panic {A : Type} (msg : string) : Eff A := (Panic msg, []).
(** A loop that is still running when the fuel is used up. *)
Definition diverge {A : Type} : Eff A := (Diverge, []).

(** A call into a collaborator that answers with a value or an error. *)
Definition call {A : Type} (q : Query) (answer : A + error) : Eff A :=
  match answer with
  | inl a => (Ret a, [q])
  | inr e => (Fail e, [q])
  end.

(** A call into a collaborator that answers with a value or [nil]. *)
Definition lookup {A : Type} (q : Query) (answer : option A) : Eff (option A) :=
  (Ret answer, [q]).

(** [if err != nil { return ..., errors.Wrap(err, msg) }] *)
Definition wrapping {A : Type} (msg : string) (m : Eff A) : Eff A :=
  match m with
  | (Fail e, q) => (Fail (errors_Wrap e msg), q)
  | other => other
  end.

(** ** Data model *)

Record GoGlobalState : Type := {
  BlockHash : common.Hash;
  Batch : Z;
  PosInBatch : Z
}.

(** The zero value [GoGlobalState{}]. *)
Definition GoGlobalState_zero : GoGlobalState :=
  {| BlockHash := common.zero; Batch := 0; PosInBatch := 0 |}.

Module challengegen.
(** The contract's wire form: [Bytes32Vals [1][32]byte], [U64Vals [2]uint64]. *)
Record GlobalState : Type := {
  Bytes32Vals : common.Hash;
  U64Vals : Z * Z
}.

(** The bound contract: the two reads the backend makes. *)
Record BlockChallenge : Type := {
  GetStartGlobalState : GlobalState + error;
  GetEndGlobalState : GlobalState + error
}.
End challengegen.

Module bind.
(** [bind.ContractBackend], as far as [challengegen.NewBlockChallenge] uses it. *)
Record ContractBackend : Type := {
  NewBlockChallenge : list byte -> challengegen.BlockChallenge + error
}.
End bind.

Module types.
(** [types.Block], as far as the backend reads it. *)
Record Block : Type := { NumberU64 : Z; Hash : common.Hash }.
End types.

Module core.
(** [core.BlockChain], as far as the backend reads it. *)
Record BlockChain : Type := {
  GetBlockByHash : common.Hash -> option types.Block;
  GetBlockByNumber : Z -> option types.Block
}.
End core.

Record BatchMetadata : Type := { MessageCount : Z }.

(** [InboxTracker], as far as the backend reads it. *)
Record InboxTracker : Type := {
  GetBatchMetadata : Z -> BatchMetadata + error
}.

Record BlockChallengeBackend : Type := {
  bc : core.BlockChain;
  startBlock : Z;
  startPosition : Z;
  endPosition : Z;
  startGs : GoGlobalState;
  endGs : GoGlobalState;
  inboxTracker : InboxTracker;
  tooFarStartsAtPosition : Z
}.

(** The assignments [b.startGs = gs] and [b.endGs = gs]. *)
Definition set_startGs (b : BlockChallengeBackend) (gs : GoGlobalState) : BlockChallengeBackend :=
  {| bc := bc b; startBlock := startBlock b; startPosition := startPosition b;
     endPosition := endPosition b; startGs := gs; endGs := endGs b;
     inboxTracker := inboxTracker b;
     tooFarStartsAtPosition := tooFarStartsAtPosition b |}.

Definition set_endGs (b : BlockChallengeBackend) (gs : GoGlobalState) : BlockChallengeBackend :=
  {| bc := bc b; startBlock := startBlock b; startPosition := startPosition b;
     endPosition := endPosition b; startGs := startGs b; endGs := gs;
     inboxTracker := inboxTracker b;
     tooFarStartsAtPosition := tooFarStartsAtPosition b |}.

Definition STATUS_FINISHED : Z := 1.
Definition STATUS_TOO_FAR : Z := 3.

(** ** The code *)

Section Code.

(** [crypto.Keccak256Hash], a function of go-ethereum. *)
Variable Keccak256Hash : list byte -> common.Hash.

Definition GoGlobalState_Hash (s : GoGlobalState) : common.Hash :=
  let data := bytes_of_string "Global state:" in
  let data := data ++ common.Bytes (BlockHash s) in
  let data := data ++ u64ToBe (Batch s) in
  let data := data ++ u64ToBe (PosInBatch s) in
  Keccak256Hash data.

Definition GoGlobalStateFromSolidity (gs : challengegen.GlobalState) : GoGlobalState :=
  {| BlockHash := challengegen.Bytes32Vals gs;
     Batch := fst (challengegen.U64Vals gs);
     PosInBatch := snd (challengegen.U64Vals gs) |}.

Definition AsSolidityStruct (s : GoGlobalState) : challengegen.GlobalState :=
  {| challengegen.Bytes32Vals := BlockHash s;
     challengegen.U64Vals := (Batch s, PosInBatch s) |}.

Definition NewBlockChallengeBackend (bc : core.BlockChain) (inboxTracker : InboxTracker)
    (client : bind.ContractBackend) (challengeAddr : list byte) : Eff BlockChallengeBackend :=
  challengeCon <- call (QNewBlockChallenge challengeAddr) (bind.NewBlockChallenge client challengeAddr) ;;
  solStartGs <- call QGetStartGlobalState (challengegen.GetStartGlobalState challengeCon) ;;
  let startGs := GoGlobalStateFromSolidity solStartGs in
  if negb (PosInBatch startGs =? 0) then
    fail (errors_New "challenge started misaligned with batch boundary")
  else
  startBlock <- lookup (QGetBlockByHash (BlockHash startGs)) (core.GetBlockByHash bc (BlockHash startGs)) ;;
  match startBlock with
  | None => fail (errors_New "failed to find start block")
  | Some startBlock =>
  let startBlockNum := types.NumberU64 startBlock in
  startBatchMeta <-
    (if 0 <? Batch startGs then
       wrapping "failed to get challenge start batch metadata"
         (call (QGetBatchMetadata (U64.sub (Batch startGs) 1))
               (GetBatchMetadata inboxTracker (U64.sub (Batch startGs) 1)))
     else mret {| MessageCount := 0 |}) ;;
  if negb (MessageCount startBatchMeta =? startBlockNum) then
    fail (errors_New "start block and start message count are not 1:1")
  else
  solEndGs <- call QGetEndGlobalState (challengegen.GetEndGlobalState challengeCon) ;;
  let endGs := GoGlobalStateFromSolidity solEndGs in
  if negb (PosInBatch endGs =? 0) then
    fail (errors_New "challenge ended misaligned with batch boundary")
  else if Batch endGs <=? Batch startGs then
    fail (errors_New "challenge didn't advance batch")
  else
  lastBatchMeta <-
    wrapping "failed to get challenge end batch metadata"
      (call (QGetBatchMetadata (U64.sub (Batch endGs) 1))
            (GetBatchMetadata inboxTracker (U64.sub (Batch endGs) 1))) ;;
  let endMsgCount := MessageCount lastBatchMeta in
  endBatchBlock <- lookup (QGetBlockByNumber endMsgCount) (core.GetBlockByNumber bc endMsgCount) ;;
  match endBatchBlock with
  | None => fail (errors_New "missing block at end of last challenge batch")
  | Some _ =>
    mret {| bc := bc;
            startBlock := startBlockNum;
            startGs := startGs;
            startPosition := 0;
            endPosition := U64.MaxUint64;
            endGs := endGs;
            inboxTracker := inboxTracker;
            tooFarStartsAtPosition := U64.add (U64.sub endMsgCount startBlockNum) 1 |}
  end
  end.

(** The [for] loop of [findBatchFromMessageCount]; [fuel] bounds the number
    of iterations that are run. *)
Fixpoint searchLoop (fuel : nat) (tracker : InboxTracker) (msgCount low high : Z) : Eff Z :=
  match fuel with
  | O => diverge
  | S fuel' =>
    let mid := U64.add low high / 2 in
    batchMeta <- wrapping "failed to get batch metadata while binary searching"
                   (call (QGetBatchMetadata mid) (GetBatchMetadata tracker mid)) ;;
    if MessageCount batchMeta <? msgCount then
      searchLoop fuel' tracker msgCount (U64.add mid 1) high
    else if MessageCount batchMeta =? msgCount then
      mret mid
    else if mid =? low then
      mret mid
    else
      searchLoop fuel' tracker msgCount low mid
  end.

Definition findBatchFromMessageCount (fuel : nat) (b : BlockChallengeBackend) (msgCount : Z) : Eff Z :=
  if msgCount =? 0 then mret 0
  else
    let low := Batch (startGs b) in
    let high := Batch (endGs b) in
    if PosInBatch (endGs b) =? 0 then
      if high =? 0 then
        fail (errors_New "end global state at inbox position (0, 0)")
      else
        searchLoop fuel (inboxTracker b) msgCount low (U64.sub high 1)
    else
      searchLoop fuel (inboxTracker b) msgCount low high.

Definition getInfoAtStep (fuel : nat) (b : BlockChallengeBackend) (position : Z)
    : Eff (GoGlobalState * Z) :=
  if tooFarStartsAtPosition b <=? position then
    mret (GoGlobalState_zero, STATUS_TOO_FAR)
  else
    block <- lookup (QGetBlockByNumber (U64.add (startBlock b) position))
                    (core.GetBlockByNumber (bc b) (U64.add (startBlock b) position)) ;;
    match block with
    | None => fail (errors_New "failed to get block in block challenge")
    | Some block =>
      let msgCount := U64.add (startBlock b) position in
      batch <- findBatchFromMessageCount fuel b msgCount ;;
      prevBatchMeta <-
        (if 0 <? batch then
           prevBatchMeta <- call (QGetBatchMetadata (U64.sub batch 1))
                                 (GetBatchMetadata (inboxTracker b) (U64.sub batch 1)) ;;
           if msgCount <=? MessageCount prevBatchMeta then
             fail (errors_New "findBatchFromMessageCount returned bad block")
           else mret prevBatchMeta
         else mret {| MessageCount := 0 |}) ;;
      let globalState :=
        {| Batch := batch;
           PosInBatch := U64.sub msgCount (MessageCount prevBatchMeta);
           BlockHash := types.Hash block |} in
      mret (globalState, STATUS_FINISHED)
    end.

(** A method that assigns to fields of its receiver: its outcome, the
    receiver after the call, and the queries issued. *)
Definition Method (A : Type) : Type :=
  BlockChallengeBackend -> (outcome A * BlockChallengeBackend * list Query)%type.

Definition Method_bind {A B : Type} (m : Method A) (f : A -> Method B) : Method B :=
  fun b =>
    match m b with
    | (Ret a, b', q) => let '(r, b'', q') := f a b' in (r, b'', q ++ q')
    | (Fail e, b', q) => (Fail e, b', q)
    | (Panic msg, b', q) => (Panic msg, b', q)
    | (Diverge, b', q) => (Diverge, b', q)
    end.

#[export] Instance Method_Monad : Monad Method := {
  mret := fun A a b => (Ret a, b, []);
  mbind := @Method_bind
}.

(** Reading the receiver, calling one of its read-only methods, assigning
    to it. *)
Definition this : Method BlockChallengeBackend := fun b => (Ret b, b, []).
Definition reading {A : Type} (m : BlockChallengeBackend -> Eff A) : Method A :=
  fun b => let (r, q) := m b in (r, b, q).
Definition assign (f : BlockChallengeBackend -> BlockChallengeBackend) : Method unit :=
  fun b => (Ret tt, f b, []).

Definition SetRange (fuel : nat) (start end_ : Z) : Method unit :=
  b <- this ;;
  if (startPosition b =? start) && (endPosition b =? end_) then mret tt
  else
    '(newStartGs, _) <- reading (fun b => getInfoAtStep fuel b start) ;;
    '(newEndGs, endStatus) <- reading (fun b => getInfoAtStep fuel b end_) ;;
    assign (fun b => set_startGs b newStartGs) ;;;
    (if endStatus =? STATUS_FINISHED
     then assign (fun b => set_endGs b newEndGs)
     else mret tt) ;;;
    mret tt.

Definition GetHashAtStep (fuel : nat) (b : BlockChallengeBackend) (position : Z)
    : Eff common.Hash :=
  '(gs, status) <- getInfoAtStep fuel b position ;;
  if status =? STATUS_FINISHED then
    let data := bytes_of_string "Block state:" in
    let data := data ++ common.Bytes (GoGlobalState_Hash gs) in
    mret (Keccak256Hash data)
  else if status =? STATUS_TOO_FAR then
    mret (Keccak256Hash (bytes_of_string "Block state, too far:"))
  else
    (* panic(fmt.Sprintf(...)): the message without the status number *)
    panic "Unknown block status".

End Code.

(** ** Reading outcomes *)

Definition outcome_of {A : Type} (m : Eff A) : outcome A := fst m.
Definition queries_of {A : Type} (m : Eff A) : list Query := snd m.

Definition result_of {A : Type} (r : outcome A * BlockChallengeBackend * list Query)
  : outcome A := fst (fst r).
Definition backend_after {A : Type} (r : outcome A * BlockChallengeBackend * list Query)
  : BlockChallengeBackend := snd (fst r).
Definition queries_issued {A : Type} (r : outcome A * BlockChallengeBackend * list Query)
  : list Query := snd r.

(** The call came back: with a value or with an error. *)
Definition returns {A : Type} (o : outcome A) : Prop :=
  match o with
  | Ret _ | Fail _ => True
  | Panic _ | Diverge => False
  end.

(** The call returned an error. *)
Definition fails {A : Type} (o : outcome A) : Prop := exists e, o = Fail e.

(** [m], after the queries [q] have been issued. *)
Definition after {A : Type} (q : list Query) (m : Eff A) : Eff A :=
  (fst m, q ++ snd m).

(** ** The locator's interval and consistent collaborators *)

(** The interval [low, high] that [findBatchFromMessageCount] searches for a
    message count other than 0; none when the end state is at inbox
    position (0, 0). *)
Definition search_range (b : BlockChallengeBackend) : option (Z * Z) :=
  if PosInBatch (endGs b) =? 0 then
    if Batch (endGs b) =? 0 then None
    else Some (Batch (startGs b), U64.sub (Batch (endGs b)) 1)
  else Some (Batch (startGs b), Batch (endGs b)).

(** Block store and batch metadata are consistent for the message count
    [msgCount]: the block with this number is there; the backend searches the
    batches [low .. high], numbered below 2^63; the inbox tracker knows the
    batches from [low - 1] to [high], their cumulative counts [meta] are
    uint64 values that grow strictly (no batch is empty); and [msgCount]
    lies after the batch before [low] and not after batch [high]. *)
Record consistent (b : BlockChallengeBackend) (meta : Z -> Z)
    (low high msgCount : Z) : Prop := {
  consistent_block : core.GetBlockByNumber (bc b) msgCount <> None;
  consistent_range : search_range b = Some (low, high);
  consistent_bounds : 0 <= low <= high /\ 2 * high < U64.modulus;
  consistent_known : forall i, 0 <= i -> low - 1 <= i <= high ->
    GetBatchMetadata (inboxTracker b) i = inl {| MessageCount := meta i |};
  consistent_growing : forall i j, 0 <= i -> low - 1 <= i -> i < j <= high ->
    meta i < meta j;
  consistent_within : msgCount <= meta high;
  consistent_after_start : 0 < low -> meta (low - 1) < msgCount
}.

(** ** The inputs of the hash function *)

(** The value of [data] when [GoGlobalState.Hash] calls [Keccak256Hash]. *)
Definition GoGlobalState_Hash_input (s : GoGlobalState) : list byte :=
  bytes_of_string "Global state:" ++ common.Bytes (BlockHash s)
  ++ u64ToBe (Batch s) ++ u64ToBe (PosInBatch s).

(** The value of [data] when [GetHashAtStep] hashes a finished step whose
    global state has the hash [h], and the literal it hashes for a step
    that is too far. *)
Definition block_state_input (h : common.Hash) : list byte :=
  bytes_of_string "Block state:" ++ common.Bytes h.

Definition too_far_input : list byte := bytes_of_string "Block state, too far:".

(** The fields of a [GoGlobalState] are uint64 values. *)
Definition wf_GoGlobalState (s : GoGlobalState) : Prop :=
  U64.in_range (Batch s) /\ U64.in_range (PosInBatch s).

(** The call did not panic. *)
Definition no_panic {A : Type} (o : outcome A) : Prop :=
  match o with
  | Panic _ => False
  | Ret _ | Fail _ | Diverge => True
  end.

(** Every query of the list is a lookup of batch metadata. *)
Definition only_metadata (q : list Query) : Prop :=
  Forall (fun x => match x with QGetBatchMetadata _ => True | _ => False end) q.

(** ** The one step proof *)

Module validator.
(** [validator.ChallengeSegment] and [validator.ChallengeState] are declared
    in the package [validator]; here they have the fields
    [IssueOneStepProof] reads, with the types it uses them at. [Start] and
    [End] are [*big.Int], taken to be non-nil. *)
Record ChallengeSegment : Type := { Position : Z }.

Record ChallengeState : Type := {
  Start : Z;
  End_ : Z;
  Segments : list ChallengeSegment;
  RawSegments : list common.Hash
}.
End validator.

Section OneStepProof.

Variable Keccak256Hash : list byte -> common.Hash.

(** [bind.TransactOpts] and [types.Transaction]. *)
Variable TransactOpts : Type.
Variable Transaction : Type.

(** The arguments of [con.ChallengeExecution], in the order of the call. *)
Record ChallengeExecutionArgs : Type := {
  arg_auth : TransactOpts;
  arg_start : Z;
  arg_length : Z;
  arg_rawSegments : list common.Hash;
  arg_segment : Z;
  arg_machineStatuses : Z * Z;
  arg_globalStateHashes : common.Hash * common.Hash
}.

(** The method [ChallengeExecution] of the bound contract: it submits a
    transaction. *)
Variable ChallengeExecution :
  challengegen.BlockChallenge -> ChallengeExecutionArgs -> Transaction + error.

(** What [IssueOneStepProof] does to the outside: the queries of the
    backend, and the transaction it submits. *)
Inductive Call : Type :=
| Read (q : Query)
| Transact (args : ChallengeExecutionArgs).

Definition Tx (A : Type) : Type := (outcome A * list Call)%type.

Definition Tx_bind {A B : Type} (m : Tx A) (f : A -> Tx B) : Tx B :=
  match m with
  | (Ret a, c) => let (r, c') := f a in (r, c ++ c')
  | (Fail e, c) => (Fail e, c)
  | (Panic msg, c) => (Panic msg, c)
  | (Diverge, c) => (Diverge, c)
  end.

#[export] Instance Tx_Monad : Monad Tx := {
  mret := fun A a => (Ret a, []);
  mbind := @Tx_bind
}.

(** A computation that only reads. *)
Definition reads {A : Type} (m : Eff A) : Tx A := (fst m, map Read (snd m)).

(** The call [con.ChallengeExecution(...)]. *)
Definition transact (con : challengegen.BlockChallenge) (args : ChallengeExecutionArgs)
    : Tx Transaction :=
  match ChallengeExecution con args with
  | inl tx => (Ret tx, [Transact args])
  | inr e => (Fail e, [Transact args])
  end.

(** [oldState.Segments[startSegment]]: an index out of range panics. *)
Definition segment_at (oldState : validator.ChallengeState) (startSegment : Z)
    : Tx validator.ChallengeSegment :=
  if startSegment <? 0 then (Panic "index out of range", [])
  else match nth_error (validator.Segments oldState) (Z.to_nat startSegment) with
       | Some seg => (Ret seg, [])
       | None => (Panic "index out of range", [])
       end.

Definition IssueOneStepProof (fuel : nat) (b : BlockChallengeBackend)
    (client : bind.ContractBackend) (auth : TransactOpts) (challenge : list byte)
    (oldState : validator.ChallengeState) (startSegment : Z) : Tx Transaction :=
  con <- reads (call (QNewBlockChallenge challenge) (bind.NewBlockChallenge client challenge)) ;;
  segment <- segment_at oldState startSegment ;;
  let position := validator.Position segment in
  '(globalStates0, machineStatuses0) <- reads (getInfoAtStep fuel b position) ;;
  '(globalStates1, machineStatuses1) <- reads (getInfoAtStep fuel b (U64.add position 1)) ;;
  let globalStateHashes :=
    (GoGlobalState_Hash Keccak256Hash globalStates0,
     GoGlobalState_Hash Keccak256Hash globalStates1) in
  transact con
    {| arg_auth := auth;
       arg_start := validator.Start oldState;
       arg_length := validator.End_ oldState - validator.Start oldState;
       arg_rawSegments := validator.RawSegments oldState;
       arg_segment := startSegment;
       arg_machineStatuses := (machineStatuses0, machineStatuses1);
       arg_globalStateHashes := globalStateHashes |}.

End OneStepProof.

Arguments Read {TransactOpts} q.
Arguments Transact {TransactOpts} args.

(** ** Concrete collaborators

    Small chains, inbox trackers and contracts on which the code is run. *)

Module Scenario.

(** The hash of block [n] on the example chains: 24 zero bytes, then the
    block number. *)
Definition blockHash (n : Z) : common.Hash :=
  common.mkHash (repeat x00 24 ++ u64ToBe n) eq_refl.

Definition block (n : Z) : types.Block :=
  {| types.NumberU64 := n; types.Hash := blockHash n |}.

Fixpoint bytes_eqb (a b : list byte) : bool :=
  match a, b with
  | [], [] => true
  | x :: a', y :: b' => Byte.eqb x y && bytes_eqb a' b'
  | _, _ => false
  end.

Definition holds (last : Z) (missing : list Z) (n : Z) : bool :=
  (0 <=? n) && (n <=? last) && negb (existsb (Z.eqb n) missing).

(** A chain with the blocks [0 .. last], without the numbers in [missing]. *)
Definition chain (last : Z) (missing : list Z) : core.BlockChain :=
  {| core.GetBlockByHash := fun h =>
       let n := be_value (skipn 24 (common.Bytes h)) in
       if bytes_eqb (common.Bytes h) (common.Bytes (blockHash n)) && holds last missing n
       then Some (block n) else None;
     core.GetBlockByNumber := fun n =>
       if holds last missing n then Some (block n) else None |}.

(** An inbox tracker that knows the batches [0 .. length counts - 1], with
    these cumulative message counts. *)
Definition tracker (counts : list Z) : InboxTracker :=
  {| GetBatchMetadata := fun seqNum =>
       if seqNum <? 0 then inr (collaborator_error "batch not found")
       else match nth_error counts (Z.to_nat seqNum) with
            | Some c => inl {| MessageCount := c |}
            | None => inr (collaborator_error "batch not found")
            end |}.

(** The count of batch [i] in the list [counts]. *)
Definition count_at (counts : list Z) (i : Z) : Z := nth (Z.to_nat i) counts 0.

(** An inbox tracker that knows every batch, with the count [meta i]. *)
Definition tracker_of (meta : Z -> Z) : InboxTracker :=
  {| GetBatchMetadata := fun seqNum => inl {| MessageCount := meta seqNum |} |}.

(** A contract that declares these two global states. *)
Definition client (startGs endGs : GoGlobalState) : bind.ContractBackend :=
  {| bind.NewBlockChallenge := fun _ =>
       inl {| challengegen.GetStartGlobalState := inl (AsSolidityStruct startGs);
              challengegen.GetEndGlobalState := inl (AsSolidityStruct endGs) |} |}.

Definition gs (n batch pos : Z) : GoGlobalState :=
  {| BlockHash := blockHash n; Batch := batch; PosInBatch := pos |}.

(** A stand-in for Keccak-256 on which the hashing code can be run; it is
    not collision resistant. *)
Definition digest (data : list byte) : common.Hash :=
  common.mkHash
    (repeat x00 24
     ++ u64ToBe (fold_left (fun acc b => (acc * 31 + Z_of_byte b) mod 2 ^ 64) data 7))
    eq_refl.

(** Three batches with the cumulative counts 5, 10, 15 over the blocks
    0 .. 15; the challenge runs from batch 0 to batch 3. *)
Definition backend : BlockChallengeBackend :=
  {| bc := chain 15 [];
     startBlock := 0;
     startPosition := 0;
     endPosition := U64.MaxUint64;
     startGs := gs 0 0 0;
     endGs := gs 15 3 0;
     inboxTracker := tracker [5; 10; 15];
     tooFarStartsAtPosition := 16 |}.

(** The same challenge on a chain that lacks block 2. *)
Definition pruned : BlockChallengeBackend :=
  {| bc := chain 15 [2];
     startBlock := 0;
     startPosition := 0;
     endPosition := U64.MaxUint64;
     startGs := gs 0 0 0;
     endGs := gs 15 3 0;
     inboxTracker := tracker [5; 10; 15];
     tooFarStartsAtPosition := 16 |}.

(** Three batches of which the last two are empty: counts 5, 5, 5. *)
Definition empty_batches : BlockChallengeBackend :=
  {| bc := chain 5 [];
     startBlock := 0;
     startPosition := 0;
     endPosition := U64.MaxUint64;
     startGs := gs 0 0 0;
     endGs := gs 5 3 0;
     inboxTracker := tracker [5; 5; 5];
     tooFarStartsAtPosition := 6 |}.

(** Batch numbers in the upper half of uint64: the batches below 2^63 hold
    no message, batch 2^63 holds one, the later ones none. *)
Definition late_counts (i : Z) : Z := if i <? 2 ^ 63 then 0 else 1.

(** The last batch the locator looks at on [late_batches]. *)
Definition late_high : Z := 2 ^ 64 - 2.

(** The lower bounds the search on [late_batches] runs through, by
    exponent: 2^63, 2^62, ..., 2, 1, and 2^63 again. *)
Definition late_next (k : nat) : nat :=
  match k with
  | O => 63%nat
  | S k' => k'
  end.

Definition late_batches : BlockChallengeBackend :=
  {| bc := chain 1 [];
     startBlock := 0;
     startPosition := 0;
     endPosition := U64.MaxUint64;
     startGs := gs 0 (2 ^ 63) 0;
     endGs := gs 1 (2 ^ 64 - 1) 0;
     inboxTracker := tracker_of late_counts;
     tooFarStartsAtPosition := 2 |}.

(** The three batches again; the challenge runs from batch 1, which begins
    after block 5, to batch 3. *)
Definition later_start : BlockChallengeBackend :=
  {| bc := chain 15 [];
     startBlock := 5;
     startPosition := 0;
     endPosition := U64.MaxUint64;
     startGs := gs 5 1 0;
     endGs := gs 15 3 0;
     inboxTracker := tracker [5; 10; 15];
     tooFarStartsAtPosition := 11 |}.

(** A contract whose [ChallengeExecution] accepts every proof and answers
    with transaction 1, and a challenge state with segments at the steps
    14 and 15. *)
Definition accept (con : challengegen.BlockChallenge)
    (args : ChallengeExecutionArgs unit) : Z + error := inl 1.

Definition last_steps : validator.ChallengeState :=
  {| validator.Start := 14;
     validator.End_ := 15;
     validator.Segments := [ {| validator.Position := 14 |};
                             {| validator.Position := 15 |} ];
     validator.RawSegments := [] |}.

(** The proof for the second segment of [last_steps] on the three-batch
    challenge: step 15 is finished, step 16 is too far. *)
Definition proof_args : ChallengeExecutionArgs unit :=
  {| arg_auth := tt;
     arg_start := 14;
     arg_length := 1;
     arg_rawSegments := [];
     arg_segment := 1;
     arg_machineStatuses := (STATUS_FINISHED, STATUS_TOO_FAR);
     arg_globalStateHashes :=
       (GoGlobalState_Hash digest (gs 15 2 5),
        GoGlobalState_Hash digest GoGlobalState_zero) |}.

End Scenario.

(** * Properties *)

(** ** uint64 arithmetic without wrap-around *)

Lemma U64_wrap_small (x : Z) : U64.in_range x -> U64.wrap x = x.
Proof. unfold U64.in_range, U64.wrap; intros H; now apply Z.mod_small. Qed.

Lemma U64_add_small (x y : Z) :
  0 <= x -> 0 <= y -> x + y < U64.modulus -> U64.add x y = x + y.
Proof. intros; unfold U64.add; apply U64_wrap_small; unfold U64.in_range; lia. Qed.

Lemma U64_sub_small (x y : Z) :
  0 <= y <= x -> x < U64.modulus -> U64.sub x y = x - y.
Proof. intros; unfold U64.sub; apply U64_wrap_small; unfold U64.in_range; lia. Qed.


(** ** Bytes and the big-endian encoding *)

Lemma Z_of_byte_of_Z (x : Z) : Z_of_byte (byte_of_Z x) = x mod 256.
Proof.
  unfold Z_of_byte, byte_of_Z.
  assert (Hr : 0 <= x mod 256 < 256) by (apply Z.mod_pos_bound; lia).
  destruct (Byte.of_N (Z.to_N (x mod 256))) as [b|] eqn:E.
  - apply Byte.to_of_N in E. rewrite E. rewrite Z2N.id; lia.
  - apply Byte.of_N_None_iff in E. lia.
Qed.

Lemma Z_of_byte_range (b : byte) : 0 <= Z_of_byte b < 256.
Proof.
  unfold Z_of_byte. pose proof (Byte.to_N_bounded b). lia.
Qed.

Lemma byte_of_Z_mod (x : Z) : byte_of_Z (x mod 256) = byte_of_Z x.
Proof.
  unfold byte_of_Z. rewrite Z.mod_mod by lia. reflexivity.
Qed.

Lemma big_endian_length (n : nat) (x : Z) : List.length (big_endian n x) = n.
Proof.
  revert x; induction n as [|n IH]; intros x; simpl.
  - reflexivity.
  - rewrite length_app, IH. simpl. lia.
Qed.

Lemma be_value_app (bs : list byte) (b : byte) :
  be_value (bs ++ [b]) = be_value bs * 256 + Z_of_byte b.
Proof.
  unfold be_value. rewrite fold_left_app. reflexivity.
Qed.

(** Decoding the [n]-byte encoding gives back the low [8 n] bits. *)
Lemma be_value_big_endian (n : nat) (x : Z) :
  be_value (big_endian n x) = x mod 256 ^ Z.of_nat n.
Proof.
  revert x; induction n as [|n IH]; intros x.
  - simpl. now rewrite Z.mod_1_r.
  - cbn [big_endian]. rewrite be_value_app, IH, Z_of_byte_of_Z.
    rewrite Nat2Z.inj_succ, Z.pow_succ_r by lia.
    assert (0 < 256 ^ Z.of_nat n) by (apply Z.pow_pos_nonneg; lia).
    rewrite Z.rem_mul_r, Z.mod_mod by lia. lia.
Qed.

(** The bytes [PutUint64] writes are the 8-byte big-endian encoding. *)
Lemma u64ToBe_big_endian (x : Z) : u64ToBe x = big_endian 8 x.
Proof.
  unfold u64ToBe. cbn [big_endian app].
  rewrite !byte_of_Z_mod.
  rewrite !Z.shiftr_div_pow2 by lia.
  rewrite !Z.div_div by lia.
  reflexivity.
Qed.

(** On a uint64 the encoding loses nothing. *)
Lemma u64ToBe_value (x : Z) : U64.in_range x -> be_value (u64ToBe x) = x.
Proof.
  intros H. rewrite u64ToBe_big_endian, be_value_big_endian.
  apply Z.mod_small. exact H.
Qed.

Lemma global_state_tag_ascii :
  map Z_of_byte (bytes_of_string "Global state:")
  = [71; 108; 111; 98; 97; 108; 32; 115; 116; 97; 116; 101; 58].
Proof. reflexivity. Qed.

(** C8. For every [GoGlobalState] the hash is Keccak-256 of exactly the tag
    ["Global state:"] (13 ASCII bytes), the 32 bytes of the block hash, the
    8-byte big-endian encoding of [Batch] and the 8-byte big-endian encoding
    of [PosInBatch], in this order: 61 bytes in all. *)
Theorem GoGlobalState_Hash_preimage
    (Keccak256Hash : list byte -> common.Hash) (gs : GoGlobalState) :
  GoGlobalState_Hash Keccak256Hash gs
  = Keccak256Hash (bytes_of_string "Global state:"
                   ++ common.Bytes (BlockHash gs)
                   ++ big_endian 8 (Batch gs)
                   ++ big_endian 8 (PosInBatch gs))
  /\ List.length (bytes_of_string "Global state:") = 13%nat
  /\ List.length (common.Bytes (BlockHash gs)) = 32%nat
  /\ List.length (big_endian 8 (Batch gs)) = 8%nat
  /\ List.length (big_endian 8 (PosInBatch gs)) = 8%nat.
Proof.
  repeat split.
  - unfold GoGlobalState_Hash. rewrite !u64ToBe_big_endian.
    rewrite <- !app_assoc. reflexivity.
  - apply common.Bytes_length.
Qed.

Lemma Eff_bind_Ret {A B : Type} (a : A) (q : list Query) (f : A -> Eff B) :
  Eff_bind (Ret a, q) f = after q (f a).
Proof. unfold Eff_bind, after. destruct (f a); reflexivity. Qed.

Lemma outcome_of_after {A : Type} (q : list Query) (m : Eff A) :
  outcome_of (after q m) = outcome_of m.
Proof. reflexivity. Qed.

Lemma Eff_bind_Ret_inv {A B : Type} (m : Eff A) (f : A -> Eff B)
    (b : B) (q : list Query) :
  Eff_bind m f = (Ret b, q) ->
  exists a q1 q2, m = (Ret a, q1) /\ f a = (Ret b, q2) /\ q = q1 ++ q2.
Proof.
  unfold Eff_bind. destruct m as [[a|e|msg|] q1]; try discriminate.
  destruct (f a) as [r q2] eqn:Ef. intros E. inversion E; subst.
  exists a, q1, q2. auto.
Qed.

Lemma after_Ret_inv {A : Type} (q0 : list Query) (m : Eff A)
    (a : A) (q : list Query) :
  after q0 m = (Ret a, q) -> exists q1, m = (Ret a, q1) /\ q = q0 ++ q1.
Proof.
  unfold after. destruct m as [o q1]. cbn [fst snd]. intros E.
  inversion E; subst. exists q1. auto.
Qed.

(** ** The step resolver *)

(** At and past [tooFarStartsAtPosition] the resolver answers at once. *)
Lemma getInfoAtStep_too_far (fuel : nat) (b : BlockChallengeBackend) (position : Z) :
  tooFarStartsAtPosition b <= position ->
  getInfoAtStep fuel b position = (Ret (GoGlobalState_zero, STATUS_TOO_FAR), []).
Proof.
  intros H. unfold getInfoAtStep.
  destruct (Z.leb_spec (tooFarStartsAtPosition b) position); [reflexivity | lia].
Qed.

(** Where the resolver returns a value, it is the zero state with [TooFar]
    past the boundary and a state with [Finished] before it. *)
Lemma getInfoAtStep_Ret (fuel : nat) (b : BlockChallengeBackend) (position : Z)
    (gs : GoGlobalState) (status : Z) (q : list Query) :
  getInfoAtStep fuel b position = (Ret (gs, status), q) ->
  (tooFarStartsAtPosition b <= position /\ gs = GoGlobalState_zero
   /\ status = STATUS_TOO_FAR /\ q = [])
  \/ (position < tooFarStartsAtPosition b /\ status = STATUS_FINISHED).
Proof.
  unfold getInfoAtStep.
  destruct (Z.leb_spec (tooFarStartsAtPosition b) position) as [Hle|Hlt].
  - intros E; inversion E; subst. left; auto.
  - intros E. right. split; [exact Hlt|].
    cbn [mbind Eff_Monad] in E. unfold lookup in E. rewrite Eff_bind_Ret in E.
    destruct (core.GetBlockByNumber (bc b) (U64.add (startBlock b) position)) as [blk|].
    2:{ discriminate E. }
    unfold after, Eff_bind in E. cbn [fst snd] in E.
    destruct (findBatchFromMessageCount fuel b (U64.add (startBlock b) position))
      as [[batch|e|msg|] q1]; cbn in E; try discriminate E.
    destruct (0 <? batch).
    + destruct (call _ _) as [[m|e|msg|] q2]; cbn in E; try discriminate E.
      destruct (_ <=? _); cbn in E; try discriminate E.
      inversion E; reflexivity.
    + cbn in E. inversion E; reflexivity.
Qed.

Lemma getInfoAtStep_status (fuel : nat) (b : BlockChallengeBackend) (position : Z)
    (gs : GoGlobalState) (status : Z) (q : list Query) :
  getInfoAtStep fuel b position = (Ret (gs, status), q) ->
  status = STATUS_FINISHED \/ status = STATUS_TOO_FAR.
Proof.
  intros E. apply getInfoAtStep_Ret in E. tauto.
Qed.

(** ** Range narrowing *)

(** How a call of [SetRange] goes, by the outcomes of its two sub-queries. *)
Lemma SetRange_same_range (fuel : nat) (b : BlockChallengeBackend) (start end_ : Z) :
  (startPosition b =? start) && (endPosition b =? end_) = true ->
  SetRange fuel start end_ b = (Ret tt, b, []).
Proof.
  intros G. unfold SetRange. cbn [mbind Method_Monad]. unfold Method_bind, this.
  rewrite G. reflexivity.
Qed.

Lemma SetRange_start_fails (fuel : nat) (b : BlockChallengeBackend) (start end_ : Z)
    (o : outcome (GoGlobalState * Z)) (q : list Query) :
  (startPosition b =? start) && (endPosition b =? end_) = false ->
  getInfoAtStep fuel b start = (o, q) ->
  (forall r, o <> Ret r) ->
  backend_after (SetRange fuel start end_ b) = b
  /\ queries_issued (SetRange fuel start end_ b) = q
  /\ forall r, result_of (SetRange fuel start end_ b) <> Ret r.
Proof.
  intros G E H. unfold SetRange. cbn [mbind Method_Monad]. unfold Method_bind, this, reading.
  rewrite G. cbn [mret]. rewrite E.
  destruct o as [r|e|msg|]; [destruct (H r eq_refl)| | |];
    (repeat split; [intros r; discriminate]).
Qed.

Lemma SetRange_end_fails (fuel : nat) (b : BlockChallengeBackend) (start end_ : Z)
    (r1 : GoGlobalState * Z) (q1 : list Query)
    (o : outcome (GoGlobalState * Z)) (q2 : list Query) :
  (startPosition b =? start) && (endPosition b =? end_) = false ->
  getInfoAtStep fuel b start = (Ret r1, q1) ->
  getInfoAtStep fuel b end_ = (o, q2) ->
  (forall r, o <> Ret r) ->
  backend_after (SetRange fuel start end_ b) = b
  /\ queries_issued (SetRange fuel start end_ b) = q1 ++ q2
  /\ forall r, result_of (SetRange fuel start end_ b) <> Ret r.
Proof.
  intros G E1 E2 H. unfold SetRange. cbn [mbind Method_Monad].
  unfold Method_bind, this, reading.
  rewrite G. cbn [mret]. rewrite E1. destruct r1 as [gs1 s1]. rewrite E2.
  destruct o as [r|e|msg|]; [destruct (H r eq_refl)| | |];
    (repeat split; [intros r; discriminate]).
Qed.

Lemma SetRange_commits (fuel : nat) (b : BlockChallengeBackend) (start end_ : Z)
    (newStartGs newEndGs : GoGlobalState) (startStatus endStatus : Z)
    (q1 q2 : list Query) :
  (startPosition b =? start) && (endPosition b =? end_) = false ->
  getInfoAtStep fuel b start = (Ret (newStartGs, startStatus), q1) ->
  getInfoAtStep fuel b end_ = (Ret (newEndGs, endStatus), q2) ->
  SetRange fuel start end_ b
  = (Ret tt,
     (if endStatus =? STATUS_FINISHED
      then set_endGs (set_startGs b newStartGs) newEndGs
      else set_startGs b newStartGs),
     q1 ++ q2).
Proof.
  intros G E1 E2. unfold SetRange. cbn [mbind Method_Monad].
  unfold Method_bind, this, reading, assign.
  rewrite G. cbn [mret]. rewrite E1, E2.
  destruct (endStatus =? STATUS_FINISHED); cbn; rewrite ?app_nil_r; reflexivity.
Qed.

(** X1. [SetRange] assigns to [startGs] and [endGs] only: the stored positions
    are the ones the backend was built with, whatever the call does. *)
Lemma SetRange_positions_frame (fuel : nat) (b : BlockChallengeBackend) (start end_ : Z) :
  startPosition (backend_after (SetRange fuel start end_ b)) = startPosition b
  /\ endPosition (backend_after (SetRange fuel start end_ b)) = endPosition b.
Proof.
  destruct ((startPosition b =? start) && (endPosition b =? end_)) eqn:G.
  - rewrite (SetRange_same_range _ _ _ _ G). split; reflexivity.
  - destruct (getInfoAtStep fuel b start) as [o1 q1] eqn:E1.
    assert (Hfail1 : (forall r, o1 <> Ret r) ->
                     backend_after (SetRange fuel start end_ b) = b).
    { intros H. now destruct (SetRange_start_fails _ _ _ _ _ _ G E1 H). }
    destruct o1 as [[gs1 s1]|e|msg|];
      try (rewrite Hfail1 by (intros r; discriminate); split; reflexivity).
    destruct (getInfoAtStep fuel b end_) as [o2 q2] eqn:E2.
    assert (Hfail2 : (forall r, o2 <> Ret r) ->
                     backend_after (SetRange fuel start end_ b) = b).
    { intros H. now destruct (SetRange_end_fails _ _ _ _ _ _ _ _ G E1 E2 H). }
    destruct o2 as [[gs2 s2]|e|msg|];
      try (rewrite Hfail2 by (intros r; discriminate); split; reflexivity).
    rewrite (SetRange_commits _ _ _ _ _ _ _ _ _ _ G E1 E2).
    destruct (s2 =? STATUS_FINISHED); split; reflexivity.
Qed.

(** C1. On the three-batch challenge, [SetRange(1, 2)] runs both sub-queries
    with success and returns nil, and the stored positions are still the
    ones of construction, 0 and MaxUint64, not 1 and 2. *)
Theorem SetRange_leaves_positions_stale :
  outcome_of (getInfoAtStep 64 Scenario.backend 1)
    = Ret (Scenario.gs 1 0 1, STATUS_FINISHED)
  /\ outcome_of (getInfoAtStep 64 Scenario.backend 2)
    = Ret (Scenario.gs 2 0 2, STATUS_FINISHED)
  /\ result_of (SetRange 64 1 2 Scenario.backend) = Ret tt
  /\ startPosition (backend_after (SetRange 64 1 2 Scenario.backend)) = 0
  /\ endPosition (backend_after (SetRange 64 1 2 Scenario.backend)) = U64.MaxUint64.
Proof.
  repeat split; vm_compute; reflexivity.
Qed.

(** C2. On the three-batch challenge, a second [SetRange(1, 2)] right after
    a first one is not skipped: it asks the block chain and the inbox tracker
    again, four queries in all. *)
Theorem SetRange_repeated_call_queries_again :
  result_of (SetRange 64 1 2 Scenario.backend) = Ret tt
  /\ result_of (SetRange 64 1 2 (backend_after (SetRange 64 1 2 Scenario.backend)))
     = Ret tt
  /\ queries_issued
       (SetRange 64 1 2 (backend_after (SetRange 64 1 2 Scenario.backend)))
     = [QGetBlockByNumber 1; QGetBatchMetadata 0;
        QGetBlockByNumber 2; QGetBatchMetadata 0].
Proof.
  repeat split; vm_compute; reflexivity.
Qed.

(** C3. If the sub-query for [start] or the sub-query for [end] returns an
    error, the backend after [SetRange(start, end)] is the backend before it:
    [startGs], [endGs], [startPosition] and [endPosition] are what they were,
    and a start state already computed is not stored. Unless the range is
    the stored one, the call does not return nil either. *)
Theorem SetRange_atomic_on_failure
    (fuel : nat) (b : BlockChallengeBackend) (start end_ : Z) :
  fails (outcome_of (getInfoAtStep fuel b start))
  \/ fails (outcome_of (getInfoAtStep fuel b end_)) ->
  backend_after (SetRange fuel start end_ b) = b
  /\ ((startPosition b =? start) && (endPosition b =? end_) = false ->
      forall r, result_of (SetRange fuel start end_ b) <> Ret r).
Proof.
  intros H.
  destruct ((startPosition b =? start) && (endPosition b =? end_)) eqn:G.
  - rewrite (SetRange_same_range _ _ _ _ G). split; [reflexivity | discriminate].
  - destruct (getInfoAtStep fuel b start) as [o1 q1] eqn:E1.
    destruct (getInfoAtStep fuel b end_) as [o2 q2] eqn:E2.
    unfold outcome_of in H; cbn [fst] in H.
    destruct o1 as [r1|e1|msg1|].
    + assert (Ho2 : forall r, o2 <> Ret r).
      { destruct H as [[e He]|[e He]]; [discriminate He|].
        subst o2. intros r; discriminate. }
      destruct (SetRange_end_fails _ _ _ _ _ _ _ _ G E1 E2 Ho2) as (Hb & _ & Hr).
      split; [exact Hb | intros _; exact Hr].
    + destruct (SetRange_start_fails _ _ _ _ _ _ G E1) as (Hb & _ & Hr);
        [intros r; discriminate|]. split; [exact Hb | intros _; exact Hr].
    + destruct (SetRange_start_fails _ _ _ _ _ _ G E1) as (Hb & _ & Hr);
        [intros r; discriminate|]. split; [exact Hb | intros _; exact Hr].
    + destruct (SetRange_start_fails _ _ _ _ _ _ G E1) as (Hb & _ & Hr);
        [intros r; discriminate|]. split; [exact Hb | intros _; exact Hr].
Qed.

(** On the chain that lacks block 2, [SetRange(1, 2)] computes the state of
    step 1, fails on step 2, and stores nothing. *)
Lemma SetRange_atomic_on_failure_witness :
  outcome_of (getInfoAtStep 64 Scenario.pruned 1)
    = Ret (Scenario.gs 1 0 1, STATUS_FINISHED)
  /\ outcome_of (getInfoAtStep 64 Scenario.pruned 2)
    = Fail (errors_New "failed to get block in block challenge")
  /\ backend_after (SetRange 64 1 2 Scenario.pruned) = Scenario.pruned
  /\ ((startPosition Scenario.pruned =? 1) && (endPosition Scenario.pruned =? 2) = false ->
      forall r, result_of (SetRange 64 1 2 Scenario.pruned) <> Ret r).
Proof.
  split; [vm_compute; reflexivity|].
  split; [vm_compute; reflexivity|].
  apply (SetRange_atomic_on_failure 64 Scenario.pruned 1 2).
  right. exists (errors_New "failed to get block in block challenge").
  vm_compute; reflexivity.
Defined.

(** C4. When [SetRange(start, end)] runs its two sub-queries and both
    succeed, it returns nil, the stored [startGs] is the state computed for
    [start], and the stored [endGs] is the state computed for [end] if the
    status of [end] is Finished and the previous [endGs] if it is TooFar;
    there is no third status. *)
Theorem SetRange_commit_policy
    (fuel : nat) (b : BlockChallengeBackend) (start end_ : Z)
    (newStartGs newEndGs : GoGlobalState) (startStatus endStatus : Z)
    (q1 q2 : list Query) :
  (startPosition b =? start) && (endPosition b =? end_) = false ->
  getInfoAtStep fuel b start = (Ret (newStartGs, startStatus), q1) ->
  getInfoAtStep fuel b end_ = (Ret (newEndGs, endStatus), q2) ->
  result_of (SetRange fuel start end_ b) = Ret tt
  /\ startGs (backend_after (SetRange fuel start end_ b)) = newStartGs
  /\ (endStatus = STATUS_FINISHED ->
      endGs (backend_after (SetRange fuel start end_ b)) = newEndGs)
  /\ (endStatus = STATUS_TOO_FAR ->
      endGs (backend_after (SetRange fuel start end_ b)) = endGs b)
  /\ (endStatus = STATUS_FINISHED \/ endStatus = STATUS_TOO_FAR).
Proof.
  intros G E1 E2.
  rewrite (SetRange_commits _ _ _ _ _ _ _ _ _ _ G E1 E2).
  unfold result_of, backend_after; cbn [fst snd].
  split; [reflexivity|].
  split; [destruct (endStatus =? STATUS_FINISHED); reflexivity|].
  split; [intros ->; reflexivity|].
  split; [intros ->; reflexivity|].
  exact (getInfoAtStep_status _ _ _ _ _ _ E2).
Qed.

(** On the three-batch challenge, [SetRange(14, 16)]: step 14 is in batch 2,
    step 16 is too far, so [startGs] is replaced and [endGs] is kept. *)
Lemma SetRange_commit_policy_witness :
  result_of (SetRange 64 14 16 Scenario.backend) = Ret tt
  /\ startGs (backend_after (SetRange 64 14 16 Scenario.backend)) = Scenario.gs 14 2 4
  /\ (STATUS_TOO_FAR = STATUS_FINISHED ->
      endGs (backend_after (SetRange 64 14 16 Scenario.backend)) = GoGlobalState_zero)
  /\ (STATUS_TOO_FAR = STATUS_TOO_FAR ->
      endGs (backend_after (SetRange 64 14 16 Scenario.backend)) = endGs Scenario.backend)
  /\ (STATUS_TOO_FAR = STATUS_FINISHED \/ STATUS_TOO_FAR = STATUS_TOO_FAR).
Proof.
  apply (SetRange_commit_policy 64 Scenario.backend 14 16
           (Scenario.gs 14 2 4) GoGlobalState_zero STATUS_FINISHED STATUS_TOO_FAR
           [QGetBlockByNumber 14; QGetBatchMetadata 1; QGetBatchMetadata 2;
            QGetBatchMetadata 1]
           []);
    vm_compute; reflexivity.
Defined.

(** ** The batch locator *)

Lemma U64_modulus_value : U64.modulus = 18446744073709551616.
Proof. reflexivity. Qed.

(** Linear arithmetic with the value of 2^64. *)
Ltac u64_lia := rewrite ?U64_modulus_value in *; lia.

Section Search.

Variable tracker : InboxTracker.
Variable msgCount : Z.

(** One iteration of the loop. *)
Lemma searchLoop_step (fuel : nat) (low high : Z) :
  searchLoop (S fuel) tracker msgCount low high
  = match GetBatchMetadata tracker (U64.add low high / 2) with
    | inr e =>
        (Fail (errors_Wrap e "failed to get batch metadata while binary searching"),
         [QGetBatchMetadata (U64.add low high / 2)])
    | inl batchMeta =>
        after [QGetBatchMetadata (U64.add low high / 2)]
          (if MessageCount batchMeta <? msgCount then
             searchLoop fuel tracker msgCount (U64.add (U64.add low high / 2) 1) high
           else if MessageCount batchMeta =? msgCount then
             (Ret (U64.add low high / 2), [])
           else if U64.add low high / 2 =? low then
             (Ret (U64.add low high / 2), [])
           else
             searchLoop fuel tracker msgCount low (U64.add low high / 2))
    end.
Proof.
  cbn [searchLoop]. cbv zeta. cbn [mbind mret Eff_Monad]. unfold call, wrapping.
  destruct (GetBatchMetadata tracker (U64.add low high / 2)) as [m|e].
  - rewrite Eff_bind_Ret. reflexivity.
  - reflexivity.
Qed.

(** Without wrap-around the midpoint lies in the interval. *)
Lemma midpoint_bounds (low high : Z) :
  0 <= low <= high -> 2 * high < U64.modulus ->
  U64.add low high / 2 = (low + high) / 2
  /\ low <= (low + high) / 2 <= high
  /\ (low < high -> (low + high) / 2 < high).
Proof.
  intros Hlh Hsum. rewrite U64_add_small by lia.
  split; [reflexivity|].
  pose proof (Z.div_mod (low + high) 2 ltac:(lia)) as Hd.
  pose proof (Z.mod_pos_bound (low + high) 2 ltac:(lia)) as Hm.
  lia.
Qed.

(** Termination. With [high] below 2^63 the midpoint does not wrap around;
    if also the count at
    [high] is at least [msgCount], each iteration returns or goes on with
    a strictly shorter interval, so [high - low + 1] iterations are enough. *)
Lemma searchLoop_returns (fuel : nat) : forall (low high : Z),
  0 <= low <= high -> 2 * high < U64.modulus ->
  (exists c, GetBatchMetadata tracker high = inl c /\ msgCount <= MessageCount c) ->
  (Z.to_nat (high - low) < fuel)%nat ->
  returns (outcome_of (searchLoop fuel tracker msgCount low high)).
Proof.
  induction fuel as [|fuel IH]; intros low high Hlh Hsum Hhigh Hfuel; [lia|].
  rewrite searchLoop_step.
  destruct (midpoint_bounds low high Hlh Hsum) as (Hmid & Hin & Hlt).
  rewrite Hmid. set (mid := (low + high) / 2) in *.
  destruct (GetBatchMetadata tracker mid) as [m|e] eqn:Em; [|exact I].
  rewrite outcome_of_after.
  destruct (Z.ltb_spec (MessageCount m) msgCount) as [Hless|Hge].
  - assert (mid <> high).
    { intros ->. destruct Hhigh as (c & Ec & Hc). rewrite Ec in Em.
      inversion Em; subst. lia. }
    rewrite U64_add_small by u64_lia.
    apply IH; [u64_lia | u64_lia | exact Hhigh | lia].
  - destruct (Z.eqb_spec (MessageCount m) msgCount); [exact I|].
    destruct (Z.eqb_spec mid low); [exact I|].
    apply IH; [lia | u64_lia | | lia].
    exists m. split; [exact Em | lia].
Qed.

Variable meta : Z -> Z.

(** Correctness. On counts that do not decrease, the loop returns an index
    of the interval whose count is at least [msgCount]; the count is
    [msgCount] itself, or every earlier index of the interval has a smaller
    count. *)
Lemma searchLoop_finds (fuel : nat) : forall (low high : Z),
  0 <= low <= high -> 2 * high < U64.modulus ->
  (forall i, low <= i <= high ->
     GetBatchMetadata tracker i = inl {| MessageCount := meta i |}) ->
  (forall i j, low <= i <= j -> j <= high -> meta i <= meta j) ->
  msgCount <= meta high ->
  (Z.to_nat (high - low) < fuel)%nat ->
  exists i q,
    searchLoop fuel tracker msgCount low high = (Ret i, q)
    /\ low <= i <= high
    /\ msgCount <= meta i
    /\ (meta i = msgCount \/ forall j, low <= j < i -> meta j < msgCount).
Proof.
  induction fuel as [|fuel IH]; intros low high Hlh Hsum Hmeta Hmono Hhigh Hfuel; [lia|].
  rewrite searchLoop_step.
  destruct (midpoint_bounds low high Hlh Hsum) as (Hmid & Hin & Hlt).
  rewrite Hmid. set (mid := (low + high) / 2) in *.
  rewrite (Hmeta mid Hin). cbn [MessageCount].
  destruct (Z.ltb_spec (meta mid) msgCount) as [Hless|Hge].
  - assert (mid <> high) by (intros E; rewrite E in Hless; lia).
    rewrite U64_add_small by u64_lia.
    destruct (IH (mid + 1) high) as (i & q & E & Hi & Hc & Hmin);
      try u64_lia.
    { intros k Hk. apply Hmeta. lia. }
    { intros k j Hk Hj. apply Hmono; lia. }
    exists i, ([QGetBatchMetadata mid] ++ q). rewrite E.
    split; [reflexivity|]. split; [lia|]. split; [exact Hc|].
    destruct Hmin as [Heq|Hmin]; [left; exact Heq|right].
    intros j Hj. destruct (Z_lt_le_dec mid j) as [Hj'|Hj'].
    + apply Hmin. lia.
    + pose proof (Hmono j mid ltac:(lia) ltac:(lia)). lia.
  - destruct (Z.eqb_spec (meta mid) msgCount) as [Heq|Hne].
    { exists mid, ([QGetBatchMetadata mid] ++ []).
      split; [reflexivity|]. split; [exact Hin|]. split; [lia|]. left; exact Heq. }
    destruct (Z.eqb_spec mid low) as [Hml|Hml].
    { exists mid, ([QGetBatchMetadata mid] ++ []).
      split; [reflexivity|]. split; [exact Hin|]. split; [lia|]. right.
      intros j Hj. lia. }
    destruct (IH low mid) as (i & q & E & Hi & Hc & Hmin); try u64_lia.
    { intros k Hk. apply Hmeta. lia. }
    { intros k j Hk Hj. apply Hmono; lia. }
    exists i, ([QGetBatchMetadata mid] ++ q). rewrite E.
    split; [reflexivity|]. split; [lia|]. split; [exact Hc|]. exact Hmin.
Qed.

End Search.

Lemma findBatchFromMessageCount_zero (fuel : nat) (b : BlockChallengeBackend) :
  findBatchFromMessageCount fuel b 0 = (Ret 0, []).
Proof. reflexivity. Qed.

Lemma findBatchFromMessageCount_search (fuel : nat) (b : BlockChallengeBackend)
    (msgCount low high : Z) :
  msgCount <> 0 ->
  search_range b = Some (low, high) ->
  findBatchFromMessageCount fuel b msgCount
  = searchLoop fuel (inboxTracker b) msgCount low high.
Proof.
  intros Hm Hr. unfold findBatchFromMessageCount, search_range in *.
  destruct (Z.eqb_spec msgCount 0); [contradiction|].
  destruct (PosInBatch (endGs b) =? 0).
  - destruct (Batch (endGs b) =? 0); [discriminate Hr|].
    inversion Hr; reflexivity.
  - inversion Hr; reflexivity.
Qed.

(** The locator on counts that grow strictly: the index returned is the
    first of the interval whose count reaches [msgCount]. *)
Lemma findBatchFromMessageCount_first (fuel : nat) (b : BlockChallengeBackend)
    (meta : Z -> Z) (low high msgCount : Z) :
  msgCount <> 0 ->
  search_range b = Some (low, high) ->
  0 <= low <= high -> 2 * high < U64.modulus ->
  (forall i, low <= i <= high ->
     GetBatchMetadata (inboxTracker b) i = inl {| MessageCount := meta i |}) ->
  (forall i j, low <= i -> i < j <= high -> meta i < meta j) ->
  msgCount <= meta high ->
  (Z.to_nat (high - low) < fuel)%nat ->
  exists i q,
    findBatchFromMessageCount fuel b msgCount = (Ret i, q)
    /\ low <= i <= high
    /\ msgCount <= meta i
    /\ forall j, low <= j < i -> meta j < msgCount.
Proof.
  intros Hm Hr Hlh Hhi Hknown Hgrow Hwithin Hfuel.
  rewrite (findBatchFromMessageCount_search _ _ _ _ _ Hm Hr).
  destruct (searchLoop_finds (inboxTracker b) msgCount meta fuel low high)
    as (i & q & E & Hi & Hc & Hmin); auto.
  { intros i j Hij Hj. destruct (Z.eq_dec i j) as [->|Hne]; [lia|].
    pose proof (Hgrow i j ltac:(lia) ltac:(lia)). lia. }
  exists i, q. repeat split; try tauto; try lia.
  intros j Hj. destruct Hmin as [Heq|Hmin]; [|now apply Hmin].
  pose proof (Hgrow j i ltac:(lia) ltac:(lia)). lia.
Qed.

(** X2. With [high] below 2^63, an interval that is not empty and a count at
    [high] of at least [msgCount], the locator returns: a batch, or the
    error of a metadata lookup. *)
Lemma findBatchFromMessageCount_returns (fuel : nat) (b : BlockChallengeBackend)
    (low high msgCount : Z) :
  search_range b = Some (low, high) ->
  0 <= low <= high -> 2 * high < U64.modulus ->
  (exists c, GetBatchMetadata (inboxTracker b) high = inl c
             /\ msgCount <= MessageCount c) ->
  (Z.to_nat (high - low) < fuel)%nat ->
  returns (outcome_of (findBatchFromMessageCount fuel b msgCount)).
Proof.
  intros Hr Hlh Hhi Hc Hfuel.
  destruct (Z.eq_dec msgCount 0) as [->|Hm].
  - rewrite findBatchFromMessageCount_zero. exact I.
  - rewrite (findBatchFromMessageCount_search _ _ _ _ _ Hm Hr).
    now apply searchLoop_returns.
Qed.

(** ** The boundary of the step resolver *)

(** Before the boundary, on consistent collaborators, the resolver returns
    a state with status Finished; its block hash is the one of the block
    with number [startBlock + position]. *)
Lemma getInfoAtStep_finished (fuel : nat) (b : BlockChallengeBackend)
    (meta : Z -> Z) (low high position : Z) :
  position < tooFarStartsAtPosition b ->
  consistent b meta low high (U64.add (startBlock b) position) ->
  (Z.to_nat (high - low) < fuel)%nat ->
  exists gs q,
    getInfoAtStep fuel b position = (Ret (gs, STATUS_FINISHED), q)
    /\ exists block,
         core.GetBlockByNumber (bc b) (U64.add (startBlock b) position) = Some block
         /\ BlockHash gs = types.Hash block.
Proof.
  intros Hpos [Hblock Hrange [Hlh Hhi] Hknown Hgrow Hwithin Hstart] Hfuel.
  unfold getInfoAtStep.
  destruct (Z.leb_spec (tooFarStartsAtPosition b) position) as [Hle|_]; [lia|].
  set (msgCount := U64.add (startBlock b) position) in *.
  cbn [mbind mret Eff_Monad]. unfold lookup. rewrite Eff_bind_Ret.
  destruct (core.GetBlockByNumber (bc b) msgCount) as [[num hash]|] eqn:Eblk;
    [clear Hblock | now destruct Hblock].
  destruct (Z.eq_dec msgCount 0) as [Hz|Hnz].
  - rewrite Hz, findBatchFromMessageCount_zero. cbn.
    eexists; eexists; split; [reflexivity|]. eexists; split; reflexivity.
  - destruct (findBatchFromMessageCount_first fuel b meta low high msgCount)
      as (i & q & E & Hi & Hc & Hmin); auto.
    { intros k Hk. apply Hknown; lia. }
    { intros k j Hk Hj. apply Hgrow; lia. }
    rewrite E, Eff_bind_Ret.
    destruct (Z.ltb_spec 0 i) as [Hipos|Hi0].
    + rewrite U64_sub_small by u64_lia.
      rewrite (Hknown (i - 1)) by lia. unfold call. rewrite Eff_bind_Ret.
      cbn [MessageCount].
      assert (Hprev : meta (i - 1) < msgCount).
      { destruct (Z.eq_dec i low) as [->|Hne]; [apply Hstart; lia|].
        apply Hmin; lia. }
      destruct (Z.leb_spec msgCount (meta (i - 1))) as [Hbad|_]; [lia|].
      cbn. eexists; eexists; split; [reflexivity|]. eexists; split; reflexivity.
    + cbn. eexists; eexists; split; [reflexivity|]. eexists; split; reflexivity.
Qed.

(** The boundary on batches that are not empty. With
    [tooFarStartsAtPosition = T]: for every position from [T] on,
    [getInfoAtStep] returns the zero state with status TooFar, with no error
    and no query to a collaborator; and for position [T - 1], when the
    counts grow strictly and the other conditions of [consistent] hold for
    the message count of that step, it returns a state with status
    Finished. *)
Theorem getInfoAtStep_boundary (fuel : nat) (b : BlockChallengeBackend) :
  (forall position, tooFarStartsAtPosition b <= position ->
     getInfoAtStep fuel b position = (Ret (GoGlobalState_zero, STATUS_TOO_FAR), []))
  /\ (forall meta low high,
        0 < tooFarStartsAtPosition b ->
        consistent b meta low high
          (U64.add (startBlock b) (tooFarStartsAtPosition b - 1)) ->
        (Z.to_nat (high - low) < fuel)%nat ->
        exists gs q,
          getInfoAtStep fuel b (tooFarStartsAtPosition b - 1)
          = (Ret (gs, STATUS_FINISHED), q)).
Proof.
  split.
  - intros position H. now apply getInfoAtStep_too_far.
  - intros meta low high HT Hc Hfuel.
    destruct (getInfoAtStep_finished fuel b meta low high
                (tooFarStartsAtPosition b - 1)) as (gs & q & E & _); auto; [lia|].
    exists gs, q. exact E.
Qed.

(** On the three-batch challenge the boundary is 16: step 15, the last
    message of batch 2, is Finished, and every step from 16 on is TooFar. *)
Lemma getInfoAtStep_boundary_witness :
  0 < tooFarStartsAtPosition Scenario.backend
  /\ consistent Scenario.backend (Scenario.count_at [5; 10; 15]) 0 2
       (U64.add (startBlock Scenario.backend)
                (tooFarStartsAtPosition Scenario.backend - 1))
  /\ (Z.to_nat (2 - 0) < 64)%nat
  /\ (forall position, 16 <= position ->
        getInfoAtStep 64 Scenario.backend position
        = (Ret (GoGlobalState_zero, STATUS_TOO_FAR), []))
  /\ exists gs q,
       getInfoAtStep 64 Scenario.backend (16 - 1) = (Ret (gs, STATUS_FINISHED), q).
Proof.
  assert (Hc : consistent Scenario.backend (Scenario.count_at [5; 10; 15]) 0 2
                 (U64.add (startBlock Scenario.backend)
                          (tooFarStartsAtPosition Scenario.backend - 1))).
  { constructor.
    - vm_compute. discriminate.
    - reflexivity.
    - rewrite U64_modulus_value. lia.
    - intros i H0 Hi. assert (Hcases : i = 0 \/ i = 1 \/ i = 2) by lia.
      destruct Hcases as [->|[->| ->]]; reflexivity.
    - intros i j H0 Hi Hj.
      assert (Hcases : (i = 0 /\ j = 1) \/ (i = 0 /\ j = 2) \/ (i = 1 /\ j = 2)) by lia.
      destruct Hcases as [[-> ->]|[[-> ->]|[-> ->]]]; vm_compute; reflexivity.
    - vm_compute. discriminate.
    - intros H. lia. }
  assert (HT : 0 < tooFarStartsAtPosition Scenario.backend) by (cbn; lia).
  assert (Hfuel : (Z.to_nat (2 - 0) < 64)%nat) by (cbn; lia).
  destruct (getInfoAtStep_boundary 64 Scenario.backend) as [Hfar Hlast].
  split; [exact HT|]. split; [exact Hc|]. split; [exact Hfuel|].
  split; [exact Hfar|].
  exact (Hlast (Scenario.count_at [5; 10; 15]) 0 2 HT Hc Hfuel).
Defined.

(** ** Step hashes *)

(** C9. Whenever [getInfoAtStep] succeeds for a position, [GetHashAtStep]
    returns, with the same queries: for status Finished the Keccak-256 hash
    of the tag ["Block state:"] followed by the 32 bytes of the hash of the
    step's global state; for status TooFar the Keccak-256 hash of the literal
    ["Block state, too far:"] alone, whatever the position. No other status
    occurs. *)
Theorem GetHashAtStep_preimage
    (Keccak256Hash : list byte -> common.Hash)
    (fuel : nat) (b : BlockChallengeBackend) (position : Z)
    (gs : GoGlobalState) (status : Z) (q : list Query) :
  getInfoAtStep fuel b position = (Ret (gs, status), q) ->
  (status = STATUS_FINISHED
   /\ GetHashAtStep Keccak256Hash fuel b position
      = (Ret (Keccak256Hash
                (bytes_of_string "Block state:"
                 ++ common.Bytes (GoGlobalState_Hash Keccak256Hash gs))), q)
   /\ List.length (common.Bytes (GoGlobalState_Hash Keccak256Hash gs)) = 32%nat)
  \/ (status = STATUS_TOO_FAR
      /\ GetHashAtStep Keccak256Hash fuel b position
         = (Ret (Keccak256Hash (bytes_of_string "Block state, too far:")), q)).
Proof.
  intros E.
  assert (Hrun : GetHashAtStep Keccak256Hash fuel b position
                 = after q
                     (if status =? STATUS_FINISHED
                      then (Ret (Keccak256Hash
                                   (bytes_of_string "Block state:"
                                    ++ common.Bytes (GoGlobalState_Hash Keccak256Hash gs))),
                            [])
                      else if status =? STATUS_TOO_FAR
                           then (Ret (Keccak256Hash
                                        (bytes_of_string "Block state, too far:")), [])
                           else panic "Unknown block status")).
  { unfold GetHashAtStep. cbn [mbind mret Eff_Monad].
    rewrite E, Eff_bind_Ret. reflexivity. }
  rewrite Hrun.
  destruct (getInfoAtStep_status _ _ _ _ _ _ E) as [-> | ->].
  - left. split; [reflexivity|]. split; [|apply common.Bytes_length].
    change (STATUS_FINISHED =? STATUS_FINISHED) with true. cbv iota.
    unfold after; cbn [fst snd]. rewrite app_nil_r. reflexivity.
  - right. split; [reflexivity|].
    change (STATUS_TOO_FAR =? STATUS_FINISHED) with false.
    change (STATUS_TOO_FAR =? STATUS_TOO_FAR) with true. cbv iota.
    unfold after; cbn [fst snd]. rewrite app_nil_r. reflexivity.
Qed.

(** On the three-batch challenge, the hash of step 16 is the hash of the
    too-far literal. *)
Lemma GetHashAtStep_preimage_witness :
  getInfoAtStep 64 Scenario.backend 16 = (Ret (GoGlobalState_zero, STATUS_TOO_FAR), [])
  /\ ((STATUS_TOO_FAR = STATUS_FINISHED
       /\ GetHashAtStep Scenario.digest 64 Scenario.backend 16
          = (Ret (Scenario.digest
                    (bytes_of_string "Block state:"
                     ++ common.Bytes (GoGlobalState_Hash Scenario.digest GoGlobalState_zero))),
             [])
       /\ List.length (common.Bytes (GoGlobalState_Hash Scenario.digest GoGlobalState_zero))
          = 32%nat)
      \/ (STATUS_TOO_FAR = STATUS_TOO_FAR
          /\ GetHashAtStep Scenario.digest 64 Scenario.backend 16
             = (Ret (Scenario.digest (bytes_of_string "Block state, too far:")), []))).
Proof.
  split; [reflexivity|].
  apply (GetHashAtStep_preimage Scenario.digest 64 Scenario.backend 16).
  reflexivity.
Defined.

(** ** Construction *)

(** C10. For a start state with [Batch = 0] the constructor asks for no
    batch metadata and compares the number of the start block with 0: if it
    succeeds, the block found for the start block hash has number 0; if the
    start state is read and aligned and that block has another number, it
    fails with the error of the 1:1 check, after three queries, none of them
    to the inbox tracker. *)
Theorem NewBlockChallengeBackend_start_batch_zero
    (bc : core.BlockChain) (inboxTracker : InboxTracker)
    (client : bind.ContractBackend) (challengeAddr : list byte)
    (challengeCon : challengegen.BlockChallenge)
    (solStartGs : challengegen.GlobalState) :
  bind.NewBlockChallenge client challengeAddr = inl challengeCon ->
  challengegen.GetStartGlobalState challengeCon = inl solStartGs ->
  Batch (GoGlobalStateFromSolidity solStartGs) = 0 ->
  (forall b q,
     NewBlockChallengeBackend bc inboxTracker client challengeAddr = (Ret b, q) ->
     startBlock b = 0
     /\ exists startBlock,
          core.GetBlockByHash bc (BlockHash (GoGlobalStateFromSolidity solStartGs))
          = Some startBlock
          /\ types.NumberU64 startBlock = 0)
  /\ (forall startBlock,
        PosInBatch (GoGlobalStateFromSolidity solStartGs) = 0 ->
        core.GetBlockByHash bc (BlockHash (GoGlobalStateFromSolidity solStartGs))
        = Some startBlock ->
        types.NumberU64 startBlock <> 0 ->
        NewBlockChallengeBackend bc inboxTracker client challengeAddr
        = (Fail (errors_New "start block and start message count are not 1:1"),
           [QNewBlockChallenge challengeAddr; QGetStartGlobalState;
            QGetBlockByHash (BlockHash (GoGlobalStateFromSolidity solStartGs))])).
Proof.
  intros Hcon Hstart Hbatch.
  split.
  - intros b q E.
    unfold NewBlockChallengeBackend in E. cbn [mbind mret Eff_Monad] in E.
    apply Eff_bind_Ret_inv in E. destruct E as (con & q1 & q2 & Econ & E & _).
    rewrite Hcon in Econ. inversion Econ; subst con q1; clear Econ.
    apply Eff_bind_Ret_inv in E. destruct E as (sol & q3 & q4 & Esol & E & _).
    rewrite Hstart in Esol. inversion Esol; subst sol q3; clear Esol.
    cbv zeta in E.
    destruct (negb (PosInBatch (GoGlobalStateFromSolidity solStartGs) =? 0));
      [discriminate E|].
    apply Eff_bind_Ret_inv in E. destruct E as (found & q5 & q6 & Efound & E & _).
    assert (Hfound : found = core.GetBlockByHash bc
                               (BlockHash (GoGlobalStateFromSolidity solStartGs)))
      by (unfold lookup in Efound; congruence).
    rewrite Hfound in E. clear Hfound Efound.
    destruct (core.GetBlockByHash bc (BlockHash (GoGlobalStateFromSolidity solStartGs)))
      as [blk|]; [|discriminate E].
    apply Eff_bind_Ret_inv in E. destruct E as (startMeta & q7 & q8 & Emeta & E & _).
    rewrite Hbatch in Emeta. change (0 <? 0) with false in Emeta.
    inversion Emeta; subst startMeta q7; clear Emeta.
    cbn [MessageCount] in E.
    destruct (Z.eqb_spec 0 (types.NumberU64 blk)) as [Hnum|Hnum];
      [|discriminate E].
    cbn [negb] in E.
    split.
    + apply Eff_bind_Ret_inv in E. destruct E as (solEndGs & q9 & q10 & _ & E & _).
      destruct (negb (PosInBatch (GoGlobalStateFromSolidity solEndGs) =? 0));
        [discriminate E|].
      destruct (Batch (GoGlobalStateFromSolidity solEndGs)
                <=? Batch (GoGlobalStateFromSolidity solStartGs));
        [discriminate E|].
      apply Eff_bind_Ret_inv in E. destruct E as (m & q11 & q12 & _ & E & _).
      apply Eff_bind_Ret_inv in E. destruct E as (blk' & q13 & q14 & _ & E & _).
      destruct blk'; [|discriminate E].
      inversion E; subst; cbn [startBlock]. symmetry; exact Hnum.
    + exists blk. split; [reflexivity | symmetry; exact Hnum].
  - intros blk Hpos Hblk Hnum.
    unfold NewBlockChallengeBackend. cbn [mbind mret Eff_Monad].
    rewrite Hcon. unfold call at 1. rewrite Eff_bind_Ret.
    rewrite Hstart. unfold call at 1. rewrite Eff_bind_Ret.
    cbv zeta. rewrite Hbatch, Hpos.
    change (0 <? 0) with false. change (negb (0 =? 0)) with false. cbv iota.
    unfold lookup. rewrite Eff_bind_Ret, Hblk, Eff_bind_Ret. cbn [MessageCount].
    destruct (Z.eqb_spec 0 (types.NumberU64 blk)) as [E|_]; [congruence|].
    reflexivity.
Qed.

(** A contract whose start state is at batch 0 with the hash of block 3:
    construction fails with the error of the 1:1 check. *)
Lemma NewBlockChallengeBackend_start_batch_zero_witness :
  core.GetBlockByHash (Scenario.chain 15 []) (Scenario.blockHash 3)
    = Some (Scenario.block 3)
  /\ types.NumberU64 (Scenario.block 3) <> 0
  /\ NewBlockChallengeBackend (Scenario.chain 15 []) (Scenario.tracker [5; 10; 15])
       (Scenario.client (Scenario.gs 3 0 0) (Scenario.gs 15 3 0)) []
     = (Fail (errors_New "start block and start message count are not 1:1"),
        [QNewBlockChallenge []; QGetStartGlobalState;
         QGetBlockByHash (Scenario.blockHash 3)]).
Proof.
  assert (Hblk : core.GetBlockByHash (Scenario.chain 15 []) (Scenario.blockHash 3)
                 = Some (Scenario.block 3)) by (vm_compute; reflexivity).
  assert (Hnum : types.NumberU64 (Scenario.block 3) <> 0) by (cbn; lia).
  split; [exact Hblk|]. split; [exact Hnum|].
  refine (proj2 (NewBlockChallengeBackend_start_batch_zero
                   (Scenario.chain 15 []) (Scenario.tracker [5; 10; 15])
                   (Scenario.client (Scenario.gs 3 0 0) (Scenario.gs 15 3 0)) []
                   _ (AsSolidityStruct (Scenario.gs 3 0 0))
                   eq_refl eq_refl eq_refl)
                (Scenario.block 3) eq_refl Hblk Hnum).
Defined.

(** ** Where the locator goes wrong *)

(** C5. On three batches with the cumulative counts 5, 5, 5 (the last two
    are empty) the locator, asked for message count 5 in the interval
    [0, 2], returns batch 1 after a single lookup, although batch 0 has
    count 5 already; the check of the caller then rejects the answer. For
    message count 0 the locator returns 0 without any query. *)
Theorem findBatchFromMessageCount_not_first_on_equal_counts :
  search_range Scenario.empty_batches = Some (0, 2)
  /\ findBatchFromMessageCount 64 Scenario.empty_batches 5
     = (Ret 1, [QGetBatchMetadata 1])
  /\ GetBatchMetadata (inboxTracker Scenario.empty_batches) 0
     = inl {| MessageCount := 5 |}
  /\ outcome_of (getInfoAtStep 64 Scenario.empty_batches 5)
     = Fail (errors_New "findBatchFromMessageCount returned bad block")
  /\ findBatchFromMessageCount 64 Scenario.empty_batches 0 = (Ret 0, []).
Proof.
  repeat split; vm_compute; reflexivity.
Qed.

(** The challenge with empty batches is one the constructor builds. *)
Lemma empty_batches_constructed :
  outcome_of
    (NewBlockChallengeBackend (Scenario.chain 5 []) (Scenario.tracker [5; 5; 5])
       (Scenario.client (Scenario.gs 0 0 0) (Scenario.gs 5 3 0)) [])
  = Ret Scenario.empty_batches.
Proof. vm_compute. reflexivity. Qed.

(** C7. The challenge over three batches with the cumulative counts 5, 5, 5,
    as the constructor builds it: the counts do not decrease, every batch
    is known, the blocks 0 .. 5 are on the chain, and the boundary is
    [T = 6]. From [T] on, [getInfoAtStep] returns the zero state with status
    TooFar and no query. For [T - 1 = 5] it does not return Finished: the
    locator answers batch 1, whose predecessor has count 5 already, and
    [getInfoAtStep] fails with the error of its own check, however many
    iterations the loop may run. *)
Theorem getInfoAtStep_last_step_fails_on_empty_batches :
  outcome_of
    (NewBlockChallengeBackend (Scenario.chain 5 []) (Scenario.tracker [5; 5; 5])
       (Scenario.client (Scenario.gs 0 0 0) (Scenario.gs 5 3 0)) [])
  = Ret Scenario.empty_batches
  /\ tooFarStartsAtPosition Scenario.empty_batches = 6
  /\ map (GetBatchMetadata (inboxTracker Scenario.empty_batches)) [0; 1; 2]
     = [inl {| MessageCount := 5 |}; inl {| MessageCount := 5 |};
        inl {| MessageCount := 5 |}]
  /\ core.GetBlockByNumber (bc Scenario.empty_batches) 5 = Some (Scenario.block 5)
  /\ (forall fuel position, 6 <= position ->
        getInfoAtStep fuel Scenario.empty_batches position
        = (Ret (GoGlobalState_zero, STATUS_TOO_FAR), []))
  /\ (forall fuel,
        getInfoAtStep (S fuel) Scenario.empty_batches (6 - 1)
        = (Fail (errors_New "findBatchFromMessageCount returned bad block"),
           [QGetBlockByNumber 5; QGetBatchMetadata 1; QGetBatchMetadata 0])).
Proof.
  split; [reflexivity|].
  split; [reflexivity|].
  split; [reflexivity|].
  split; [reflexivity|].
  split.
  - intros fuel position H. apply getInfoAtStep_too_far. exact H.
  - intros fuel. vm_compute. reflexivity.
Qed.

(** One round of the search on the late batches: from the lower bound 2^k the
    midpoint wraps around, its count is below the message count 1, and the
    next lower bound is 2^(k-1), or 2^63 after 2^0. *)
Lemma late_round_check :
  forallb
    (fun k =>
       (Scenario.late_counts
          (U64.add (2 ^ Z.of_nat k) Scenario.late_high / 2) <? 1)
       && (U64.add (U64.add (2 ^ Z.of_nat k) Scenario.late_high / 2) 1
           =? 2 ^ Z.of_nat (Scenario.late_next k)))
    (seq 0 64)
  = true.
Proof. vm_compute. reflexivity. Qed.

Lemma late_round (k : nat) :
  (k <= 63)%nat ->
  Scenario.late_counts (U64.add (2 ^ Z.of_nat k) Scenario.late_high / 2) < 1
  /\ U64.add (U64.add (2 ^ Z.of_nat k) Scenario.late_high / 2) 1
     = 2 ^ Z.of_nat (Scenario.late_next k).
Proof.
  intros Hk. pose proof late_round_check as H.
  rewrite forallb_forall in H. specialize (H k).
  rewrite in_seq in H. specialize (H ltac:(lia)).
  apply andb_prop in H. destruct H as [H1 H2].
  split; [apply Z.ltb_lt; exact H1 | apply Z.eqb_eq; exact H2].
Qed.

Lemma late_next_bound (k : nat) : (k <= 63)%nat -> (Scenario.late_next k <= 63)%nat.
Proof. destruct k; cbn; lia. Qed.

(** However many iterations are run, the loop has not returned. *)
Lemma searchLoop_late_diverges (fuel : nat) : forall k : nat,
  (k <= 63)%nat ->
  outcome_of
    (searchLoop fuel (Scenario.tracker_of Scenario.late_counts) 1
       (2 ^ Z.of_nat k) Scenario.late_high)
  = Diverge.
Proof.
  induction fuel as [|fuel IH]; intros k Hk; [reflexivity|].
  rewrite searchLoop_step.
  unfold Scenario.tracker_of at 1. cbn [GetBatchMetadata MessageCount].
  rewrite outcome_of_after.
  destruct (late_round k Hk) as [Hlt Hnext].
  destruct (Z.ltb_spec
              (Scenario.late_counts (U64.add (2 ^ Z.of_nat k) Scenario.late_high / 2)) 1)
    as [_|Hge]; [|lia].
  rewrite Hnext. apply IH. now apply late_next_bound.
Qed.

(** C6. A challenge from batch 2^63 to batch 2^64 - 1, as the constructor
    builds it: the locator searches the interval [2^63, 2^64 - 2] for message
    count 1; the counts do not decrease, the count at [high] is 1 and the
    count at [low - 1] is 0, so the invariant of the loop holds; and the
    loop never returns, whatever the number of iterations, nor does
    [getInfoAtStep] for step 1. *)
Theorem findBatchFromMessageCount_diverges_on_late_batches :
  outcome_of
    (NewBlockChallengeBackend (Scenario.chain 1 [])
       (Scenario.tracker_of Scenario.late_counts)
       (Scenario.client (Scenario.gs 0 (2 ^ 63) 0) (Scenario.gs 1 (2 ^ 64 - 1) 0)) [])
  = Ret Scenario.late_batches
  /\ search_range Scenario.late_batches = Some (2 ^ 63, 2 ^ 64 - 2)
  /\ 1 <= Scenario.late_counts (2 ^ 64 - 2)
  /\ Scenario.late_counts (2 ^ 63 - 1) < 1
  /\ (forall i j, i <= j -> Scenario.late_counts i <= Scenario.late_counts j)
  /\ (forall fuel,
        outcome_of (findBatchFromMessageCount fuel Scenario.late_batches 1) = Diverge)
  /\ (forall fuel,
        outcome_of (getInfoAtStep fuel Scenario.late_batches 1) = Diverge).
Proof.
  assert (Hrange : search_range Scenario.late_batches = Some (2 ^ 63, 2 ^ 64 - 2))
    by (vm_compute; reflexivity).
  assert (Hloop : forall fuel,
            outcome_of (findBatchFromMessageCount fuel Scenario.late_batches 1) = Diverge).
  { intros fuel.
    rewrite (findBatchFromMessageCount_search fuel _ 1 _ _ ltac:(lia) Hrange).
    exact (searchLoop_late_diverges fuel 63 (le_n 63)). }
  split; [reflexivity|].
  split; [exact Hrange|].
  split; [vm_compute; discriminate|].
  split; [vm_compute; reflexivity|].
  split.
  { intros i j Hij. unfold Scenario.late_counts.
    destruct (Z.ltb_spec i (2 ^ 63)), (Z.ltb_spec j (2 ^ 63)); lia. }
  split; [exact Hloop|].
  intros fuel. specialize (Hloop fuel).
  unfold getInfoAtStep.
  change (tooFarStartsAtPosition Scenario.late_batches <=? 1) with false. cbv iota.
  cbn [mbind mret Eff_Monad]. unfold lookup. rewrite Eff_bind_Ret, outcome_of_after.
  change (core.GetBlockByNumber (bc Scenario.late_batches)
            (U64.add (startBlock Scenario.late_batches) 1))
    with (Some (Scenario.block 1)).
  cbv iota.
  change (U64.add (startBlock Scenario.late_batches) 1) with 1.
  destruct (findBatchFromMessageCount fuel Scenario.late_batches 1) as [o q].
  unfold outcome_of in Hloop; cbn [fst] in Hloop. subst o. reflexivity.
Qed.

(** ** The locator on the three-batch challenge *)

Lemma three_batches_known (i : Z) :
  0 <= i <= 2 ->
  GetBatchMetadata (inboxTracker Scenario.backend) i
  = inl {| MessageCount := Scenario.count_at [5; 10; 15] i |}.
Proof.
  intros Hi. assert (Hcases : i = 0 \/ i = 1 \/ i = 2) by lia.
  destruct Hcases as [->|[->| ->]]; reflexivity.
Qed.

Lemma three_batches_growing (i j : Z) :
  0 <= i -> i < j <= 2 ->
  Scenario.count_at [5; 10; 15] i < Scenario.count_at [5; 10; 15] j.
Proof.
  intros H0 Hj.
  assert (Hcases : (i = 0 /\ j = 1) \/ (i = 0 /\ j = 2) \/ (i = 1 /\ j = 2)) by lia.
  destruct Hcases as [[-> ->]|[[-> ->]|[-> ->]]]; vm_compute; reflexivity.
Qed.

(** Message count 7 on the three-batch challenge: the locator returns. *)
Lemma findBatchFromMessageCount_returns_witness :
  returns (outcome_of (findBatchFromMessageCount 64 Scenario.backend 7)).
Proof.
  apply (findBatchFromMessageCount_returns 64 Scenario.backend 0 2 7).
  - reflexivity.
  - lia.
  - rewrite U64_modulus_value. lia.
  - exists {| MessageCount := 15 |}. split; [reflexivity | cbn; lia].
  - cbn. lia.
Defined.

(** X3. The locator on counts that grow strictly, with [high] below 2^63 and
    a count at [high] of at least [msgCount]: given [high - low + 1]
    iterations, it returns the first index of the interval whose count
    reaches [msgCount]. *)
Theorem locator_first_index (fuel : nat) (b : BlockChallengeBackend)
    (meta : Z -> Z) (low high msgCount : Z) :
  msgCount <> 0 ->
  search_range b = Some (low, high) ->
  0 <= low <= high -> 2 * high < U64.modulus ->
  (forall i, low <= i <= high ->
     GetBatchMetadata (inboxTracker b) i = inl {| MessageCount := meta i |}) ->
  (forall i j, low <= i -> i < j <= high -> meta i < meta j) ->
  msgCount <= meta high ->
  (Z.to_nat (high - low) < fuel)%nat ->
  exists i q,
    findBatchFromMessageCount fuel b msgCount = (Ret i, q)
    /\ low <= i <= high
    /\ msgCount <= meta i
    /\ forall j, low <= j < i -> meta j < msgCount.
Proof.
  exact (findBatchFromMessageCount_first fuel b meta low high msgCount).
Qed.

(** Message count 7 on the three-batch challenge lies in batch 1. *)
Lemma locator_first_index_witness :
  exists i q,
    findBatchFromMessageCount 64 Scenario.backend 7 = (Ret i, q)
    /\ 0 <= i <= 2
    /\ 7 <= Scenario.count_at [5; 10; 15] i
    /\ forall j, 0 <= j < i -> Scenario.count_at [5; 10; 15] j < 7.
Proof.
  apply (locator_first_index 64 Scenario.backend (Scenario.count_at [5; 10; 15]) 0 2 7).
  - lia.
  - reflexivity.
  - lia.
  - rewrite U64_modulus_value. lia.
  - exact three_batches_known.
  - intros i j Hi Hj. apply three_batches_growing; lia.
  - vm_compute. discriminate.
  - cbn. lia.
Defined.

(** The three-batch challenge is the backend the constructor builds from
    its contract, with six queries. *)
Lemma three_batches_constructed :
  NewBlockChallengeBackend (Scenario.chain 15 []) (Scenario.tracker [5; 10; 15])
    (Scenario.client (Scenario.gs 0 0 0) (Scenario.gs 15 3 0)) []
  = (Ret Scenario.backend,
     [QNewBlockChallenge []; QGetStartGlobalState;
      QGetBlockByHash (Scenario.blockHash 0); QGetEndGlobalState;
      QGetBatchMetadata 2; QGetBlockByNumber 15]).
Proof. reflexivity. Qed.

(** * More of the code *)

(** ** Encodings *)

(** X4. [u64ToBe] writes eight bytes, and reading them back as a big-endian
    number gives the uint64 it was given. *)
Theorem u64ToBe_roundtrip (x : Z) :
  U64.in_range x ->
  List.length (u64ToBe x) = 8%nat /\ be_value (u64ToBe x) = x.
Proof.
  intros H. split; [reflexivity | now apply u64ToBe_value].
Qed.

Lemma u64ToBe_roundtrip_witness :
  List.length (u64ToBe (2 ^ 63 + 258)) = 8%nat
  /\ be_value (u64ToBe (2 ^ 63 + 258)) = 2 ^ 63 + 258.
Proof.
  apply (u64ToBe_roundtrip (2 ^ 63 + 258)).
  unfold U64.in_range. rewrite U64_modulus_value. lia.
Defined.

(** X5. The conversions from and to the contract's form of a global state
    undo each other, in both directions. *)
Theorem GoGlobalState_solidity_roundtrip
    (s : GoGlobalState) (gs : challengegen.GlobalState) :
  GoGlobalStateFromSolidity (AsSolidityStruct s) = s
  /\ AsSolidityStruct (GoGlobalStateFromSolidity gs) = gs.
Proof.
  split.
  - destruct s; reflexivity.
  - destruct gs as [h [batch pos]]; reflexivity.
Qed.

Lemma app_inj_length {A : Type} (l1 l2 r1 r2 : list A) :
  List.length l1 = List.length l2 -> l1 ++ r1 = l2 ++ r2 -> l1 = l2 /\ r1 = r2.
Proof.
  revert l2; induction l1 as [|x l1 IH]; intros [|y l2] Hlen E;
    try discriminate Hlen.
  - split; [reflexivity | exact E].
  - cbn in E. injection E as Ex E. injection Hlen as Hlen.
    destruct (IH l2 Hlen E) as [-> ->]. subst. split; reflexivity.
Qed.

(** Two hashes with the same bytes are the same hash. *)
Lemma Hash_eq (h1 h2 : common.Hash) : common.Bytes h1 = common.Bytes h2 -> h1 = h2.
Proof.
  destruct h1 as [b1 p1], h2 as [b2 p2]. cbn. intros ->.
  f_equal. apply UIP_dec. apply Nat.eq_dec.
Qed.

Lemma u64ToBe_injective (x y : Z) :
  U64.in_range x -> U64.in_range y -> u64ToBe x = u64ToBe y -> x = y.
Proof.
  intros Hx Hy E.
  rewrite <- (u64ToBe_value x Hx), <- (u64ToBe_value y Hy), E. reflexivity.
Qed.

(** [Hash] is Keccak-256 of [GoGlobalState_Hash_input]. *)
Lemma GoGlobalState_Hash_of_input
    (Keccak256Hash : list byte -> common.Hash) (s : GoGlobalState) :
  GoGlobalState_Hash Keccak256Hash s = Keccak256Hash (GoGlobalState_Hash_input s).
Proof.
  unfold GoGlobalState_Hash, GoGlobalState_Hash_input.
  rewrite <- !app_assoc. reflexivity.
Qed.

Lemma GoGlobalState_Hash_input_length (s : GoGlobalState) :
  List.length (GoGlobalState_Hash_input s) = 61%nat.
Proof.
  unfold GoGlobalState_Hash_input.
  rewrite !length_app, common.Bytes_length. reflexivity.
Qed.

(** X6. The bytes that [Hash] feeds to Keccak-256 determine the state: two
    global states with uint64 fields and the same hash input are equal. *)
Theorem GoGlobalState_Hash_input_injective (a b : GoGlobalState) :
  wf_GoGlobalState a -> wf_GoGlobalState b ->
  GoGlobalState_Hash_input a = GoGlobalState_Hash_input b ->
  a = b.
Proof.
  intros [Ha1 Ha2] [Hb1 Hb2] E. unfold GoGlobalState_Hash_input in E.
  apply app_inv_head in E.
  apply app_inj_length in E;
    [|now rewrite !common.Bytes_length].
  destruct E as [Eh E].
  apply app_inj_length in E; [|reflexivity].
  destruct E as [Ebatch Epos].
  apply Hash_eq in Eh.
  apply u64ToBe_injective in Ebatch; [|assumption..].
  apply u64ToBe_injective in Epos; [|assumption..].
  destruct a, b; cbn in *; subst; reflexivity.
Qed.

Lemma GoGlobalState_Hash_input_injective_witness :
  Scenario.gs 14 2 4 = Scenario.gs 14 2 4.
Proof.
  apply (GoGlobalState_Hash_input_injective (Scenario.gs 14 2 4) (Scenario.gs 14 2 4)).
  - split; cbn; unfold U64.in_range; rewrite U64_modulus_value; lia.
  - split; cbn; unfold U64.in_range; rewrite U64_modulus_value; lia.
  - reflexivity.
Defined.

(** X7. The three kinds of input that the backend hashes never coincide:
    the input of a global-state hash (61 bytes), the input of the hash of a
    finished step (44 bytes) and the too-far literal (21 bytes). *)
Theorem hash_inputs_distinct (s : GoGlobalState) (h : common.Hash) :
  GoGlobalState_Hash_input s <> block_state_input h
  /\ GoGlobalState_Hash_input s <> too_far_input
  /\ block_state_input h <> too_far_input.
Proof.
  assert (H1 : List.length (GoGlobalState_Hash_input s) = 61%nat)
    by apply GoGlobalState_Hash_input_length.
  assert (H2 : List.length (block_state_input h) = 44%nat).
  { unfold block_state_input. rewrite length_app, common.Bytes_length. reflexivity. }
  assert (H3 : List.length too_far_input = 21%nat) by reflexivity.
  repeat split; intros E; rewrite E in *; congruence.
Qed.

(** ** What a constructed backend satisfies *)

Lemma wrapping_Ret_inv {A : Type} (msg : string) (m : Eff A) (a : A) (q : list Query) :
  wrapping msg m = (Ret a, q) -> m = (Ret a, q).
Proof.
  unfold wrapping. destruct m as [[x|e|s|] q0]; intros E;
    try discriminate E; exact E.
Qed.

Lemma call_Ret_inv {A : Type} (query : Query) (answer : A + error)
    (a : A) (q : list Query) :
  call query answer = (Ret a, q) -> answer = inl a.
Proof.
  unfold call. destruct answer; intros E; inversion E; reflexivity.
Qed.

(** What the checks of the constructor leave of a backend it returns. *)
Lemma NewBlockChallengeBackend_Ret_inv
    (bc0 : core.BlockChain) (tracker : InboxTracker)
    (client : bind.ContractBackend) (challengeAddr : list byte)
    (b : BlockChallengeBackend) (q : list Query) :
  NewBlockChallengeBackend bc0 tracker client challengeAddr = (Ret b, q) ->
  bc b = bc0 /\ inboxTracker b = tracker
  /\ startPosition b = 0 /\ endPosition b = U64.MaxUint64
  /\ PosInBatch (startGs b) = 0 /\ PosInBatch (endGs b) = 0
  /\ Batch (startGs b) < Batch (endGs b)
  /\ (exists startBlock0,
        core.GetBlockByHash bc0 (BlockHash (startGs b)) = Some startBlock0
        /\ types.NumberU64 startBlock0 = startBlock b)
  /\ (0 < Batch (startGs b) ->
      GetBatchMetadata tracker (U64.sub (Batch (startGs b)) 1)
      = inl {| MessageCount := startBlock b |})
  /\ (Batch (startGs b) <= 0 -> startBlock b = 0)
  /\ (exists c,
        GetBatchMetadata tracker (U64.sub (Batch (endGs b)) 1)
        = inl {| MessageCount := c |}
        /\ core.GetBlockByNumber bc0 c <> None
        /\ tooFarStartsAtPosition b = U64.add (U64.sub c (startBlock b)) 1).
Proof.
  intros E.
  unfold NewBlockChallengeBackend in E. cbn [mbind mret Eff_Monad] in E.
  apply Eff_bind_Ret_inv in E. destruct E as (con & q1 & q2 & _ & E & _).
  apply Eff_bind_Ret_inv in E. destruct E as (sol & q3 & q4 & _ & E & _).
  cbv zeta in E.
  set (sGs := GoGlobalStateFromSolidity sol) in *.
  destruct (Z.eqb_spec (PosInBatch sGs) 0) as [Hspos|_]; [|discriminate E].
  cbn [negb] in E.
  apply Eff_bind_Ret_inv in E. destruct E as (found & q5 & q6 & Efound & E & _).
  assert (Hfound : found = core.GetBlockByHash bc0 (BlockHash sGs))
    by (unfold lookup in Efound; congruence).
  clear Efound.
  destruct found as [blk|]; [|discriminate E].
  apply Eff_bind_Ret_inv in E. destruct E as (startMeta & q7 & q8 & Emeta & E & _).
  destruct (Z.eqb_spec (MessageCount startMeta) (types.NumberU64 blk)) as [Hone|_];
    [|discriminate E].
  cbn [negb] in E.
  apply Eff_bind_Ret_inv in E. destruct E as (solEnd & q9 & q10 & _ & E & _).
  set (eGs := GoGlobalStateFromSolidity solEnd) in *.
  destruct (Z.eqb_spec (PosInBatch eGs) 0) as [Hepos|_]; [|discriminate E].
  cbn [negb] in E.
  destruct (Z.leb_spec (Batch eGs) (Batch sGs)) as [_|Hadv]; [discriminate E|].
  apply Eff_bind_Ret_inv in E. destruct E as (lastMeta & q11 & q12 & Elast & E & _).
  apply wrapping_Ret_inv, call_Ret_inv in Elast.
  apply Eff_bind_Ret_inv in E. destruct E as (endBlk & q13 & q14 & Eend & E & _).
  assert (Hend : endBlk = core.GetBlockByNumber bc0 (MessageCount lastMeta))
    by (unfold lookup in Eend; congruence).
  clear Eend.
  destruct endBlk as [endBlock|]; [|discriminate E].
  assert (Hb : b = {| bc := bc0;
                      startBlock := types.NumberU64 blk;
                      startGs := sGs;
                      startPosition := 0;
                      endPosition := U64.MaxUint64;
                      endGs := eGs;
                      inboxTracker := tracker;
                      tooFarStartsAtPosition :=
                        U64.add (U64.sub (MessageCount lastMeta) (types.NumberU64 blk)) 1 |})
    by congruence.
  subst b. cbn [bc inboxTracker startPosition endPosition startGs endGs startBlock
                tooFarStartsAtPosition].
  repeat (split; [solve [reflexivity | assumption]|]).
  split; [exists blk; split; [symmetry; exact Hfound | reflexivity]|].
  split.
  { intros Hpos. destruct (Z.ltb_spec 0 (Batch sGs)) as [_|Hle]; [|lia].
    apply wrapping_Ret_inv, call_Ret_inv in Emeta. rewrite Emeta.
    destruct startMeta as [c]. cbn in Hone. subst c. reflexivity. }
  split.
  { intros Hle. destruct (Z.ltb_spec 0 (Batch sGs)) as [Hpos|_]; [lia|].
    inversion Emeta; subst startMeta. cbn in Hone. symmetry; exact Hone. }
  exists (MessageCount lastMeta). split; [|split].
  - rewrite Elast. destruct lastMeta; reflexivity.
  - rewrite <- Hend. discriminate.
  - reflexivity.
Qed.

(** X8. If the constructor succeeds, the backend it returns holds the
    collaborators it was given and the range [0, MaxUint64]; both stored
    states are aligned ([PosInBatch = 0]) and the end batch is after the
    start batch; the block with the start block hash is on the chain and its
    number is [startBlock]; for a start batch above 0 the count of the batch
    before it equals [startBlock]; and the batch before the end batch has a
    count [c] for which the chain has a block, with
    [tooFarStartsAtPosition = c - startBlock + 1] in uint64 arithmetic. *)
Theorem NewBlockChallengeBackend_postconditions
    (bc0 : core.BlockChain) (tracker : InboxTracker)
    (client : bind.ContractBackend) (challengeAddr : list byte)
    (b : BlockChallengeBackend) (q : list Query) :
  NewBlockChallengeBackend bc0 tracker client challengeAddr = (Ret b, q) ->
  bc b = bc0 /\ inboxTracker b = tracker
  /\ startPosition b = 0 /\ endPosition b = U64.MaxUint64
  /\ PosInBatch (startGs b) = 0 /\ PosInBatch (endGs b) = 0
  /\ Batch (startGs b) < Batch (endGs b)
  /\ (exists startBlock0,
        core.GetBlockByHash bc0 (BlockHash (startGs b)) = Some startBlock0
        /\ types.NumberU64 startBlock0 = startBlock b)
  /\ (0 < Batch (startGs b) ->
      GetBatchMetadata tracker (U64.sub (Batch (startGs b)) 1)
      = inl {| MessageCount := startBlock b |})
  /\ (Batch (startGs b) <= 0 -> startBlock b = 0)
  /\ (exists c,
        GetBatchMetadata tracker (U64.sub (Batch (endGs b)) 1)
        = inl {| MessageCount := c |}
        /\ core.GetBlockByNumber bc0 c <> None
        /\ tooFarStartsAtPosition b = U64.add (U64.sub c (startBlock b)) 1).
Proof.
  exact (NewBlockChallengeBackend_Ret_inv bc0 tracker client challengeAddr b q).
Qed.

Lemma NewBlockChallengeBackend_postconditions_witness :
  bc Scenario.backend = Scenario.chain 15 []
  /\ inboxTracker Scenario.backend = Scenario.tracker [5; 10; 15]
  /\ startPosition Scenario.backend = 0
  /\ endPosition Scenario.backend = U64.MaxUint64
  /\ PosInBatch (startGs Scenario.backend) = 0
  /\ PosInBatch (endGs Scenario.backend) = 0
  /\ Batch (startGs Scenario.backend) < Batch (endGs Scenario.backend)
  /\ (exists startBlock0,
        core.GetBlockByHash (Scenario.chain 15 []) (BlockHash (startGs Scenario.backend))
        = Some startBlock0
        /\ types.NumberU64 startBlock0 = startBlock Scenario.backend)
  /\ (0 < Batch (startGs Scenario.backend) ->
      GetBatchMetadata (Scenario.tracker [5; 10; 15])
        (U64.sub (Batch (startGs Scenario.backend)) 1)
      = inl {| MessageCount := startBlock Scenario.backend |})
  /\ (Batch (startGs Scenario.backend) <= 0 -> startBlock Scenario.backend = 0)
  /\ (exists c,
        GetBatchMetadata (Scenario.tracker [5; 10; 15])
          (U64.sub (Batch (endGs Scenario.backend)) 1)
        = inl {| MessageCount := c |}
        /\ core.GetBlockByNumber (Scenario.chain 15 []) c <> None
        /\ tooFarStartsAtPosition Scenario.backend
           = U64.add (U64.sub c (startBlock Scenario.backend)) 1).
Proof.
  apply (NewBlockChallengeBackend_postconditions
           (Scenario.chain 15 []) (Scenario.tracker [5; 10; 15])
           (Scenario.client (Scenario.gs 0 0 0) (Scenario.gs 15 3 0)) []
           Scenario.backend
           [QNewBlockChallenge []; QGetStartGlobalState;
            QGetBlockByHash (Scenario.blockHash 0); QGetEndGlobalState;
            QGetBatchMetadata 2; QGetBlockByNumber 15]).
  reflexivity.
Defined.

(** ** The locator without assumptions on the metadata *)

Lemma searchLoop_sound (tracker : InboxTracker) (msgCount : Z) (fuel : nat) :
  forall (low high i : Z) (q : list Query),
  searchLoop fuel tracker msgCount low high = (Ret i, q) ->
  (exists c, GetBatchMetadata tracker i = inl c /\ msgCount <= MessageCount c)
  /\ only_metadata q
  /\ exists q', q = q' ++ [QGetBatchMetadata i].
Proof.
  induction fuel as [|fuel IH]; intros low high i q E; [discriminate E|].
  rewrite searchLoop_step in E.
  set (mid := U64.add low high / 2) in *.
  destruct (GetBatchMetadata tracker mid) as [c|e] eqn:Ec; [|discriminate E].
  apply after_Ret_inv in E. destruct E as (q1 & E & ->).
  assert (Hhere : forall r, (Ret mid, @nil Query) = (Ret r, q1) ->
                  msgCount <= MessageCount c ->
                  (exists c0, GetBatchMetadata tracker r = inl c0
                              /\ msgCount <= MessageCount c0)
                  /\ only_metadata ([QGetBatchMetadata mid] ++ q1)
                  /\ exists q', [QGetBatchMetadata mid] ++ q1
                                = q' ++ [QGetBatchMetadata r]).
  { intros r Er Hc. inversion Er; subst r q1.
    split; [exists c; split; [exact Ec | exact Hc]|].
    split; [repeat constructor | exists []; reflexivity]. }
  assert (Hrec : forall low' high',
            searchLoop fuel tracker msgCount low' high' = (Ret i, q1) ->
            (exists c0, GetBatchMetadata tracker i = inl c0
                        /\ msgCount <= MessageCount c0)
            /\ only_metadata ([QGetBatchMetadata mid] ++ q1)
            /\ exists q', [QGetBatchMetadata mid] ++ q1
                          = q' ++ [QGetBatchMetadata i]).
  { intros low' high' Er. destruct (IH _ _ _ _ Er) as (Hc & Hq & q' & ->).
    split; [exact Hc|]. split.
    - constructor; [exact I | exact Hq].
    - exists (QGetBatchMetadata mid :: q'). reflexivity. }
  destruct (Z.ltb_spec (MessageCount c) msgCount) as [_|Hge]; [now apply Hrec in E|].
  destruct (Z.eqb_spec (MessageCount c) msgCount) as [Heq|_];
    [apply Hhere; [exact E | lia]|].
  destruct (Z.eqb_spec mid low) as [_|_]; [apply Hhere; [exact E | lia]|].
  now apply Hrec in E.
Qed.

(** X9. Whatever the metadata and the stored range are: a batch that
    [findBatchFromMessageCount] returns for a message count other than 0
    has a known cumulative count of at least that message count; the
    queries issued are lookups of batch metadata only, and the last one is
    the lookup of the batch returned. *)
Theorem findBatchFromMessageCount_sound (fuel : nat) (b : BlockChallengeBackend)
    (msgCount i : Z) (q : list Query) :
  msgCount <> 0 ->
  findBatchFromMessageCount fuel b msgCount = (Ret i, q) ->
  (exists c, GetBatchMetadata (inboxTracker b) i = inl c /\ msgCount <= MessageCount c)
  /\ only_metadata q
  /\ exists q', q = q' ++ [QGetBatchMetadata i].
Proof.
  intros Hm E. unfold findBatchFromMessageCount in E.
  destruct (Z.eqb_spec msgCount 0); [contradiction|].
  destruct (PosInBatch (endGs b) =? 0).
  - destruct (Batch (endGs b) =? 0); [discriminate E|].
    exact (searchLoop_sound _ _ _ _ _ _ _ E).
  - exact (searchLoop_sound _ _ _ _ _ _ _ E).
Qed.

Lemma findBatchFromMessageCount_sound_witness :
  (exists c, GetBatchMetadata (inboxTracker Scenario.backend) 1 = inl c
             /\ 7 <= MessageCount c)
  /\ only_metadata [QGetBatchMetadata 1; QGetBatchMetadata 0; QGetBatchMetadata 1]
  /\ exists q', [QGetBatchMetadata 1; QGetBatchMetadata 0; QGetBatchMetadata 1] = q' ++ [QGetBatchMetadata 1].
Proof.
  apply (findBatchFromMessageCount_sound 64 Scenario.backend 7 1 [QGetBatchMetadata 1; QGetBatchMetadata 0; QGetBatchMetadata 1]).
  - lia.
  - reflexivity.
Defined.

Lemma searchLoop_all_below (tracker : InboxTracker) (msgCount low0 high : Z)
    (fuel : nat) : forall low : Z,
  0 <= low0 <= low -> low <= high + 1 -> low0 <= high ->
  2 * high + 1 < U64.modulus ->
  (forall i, low0 <= i <= high ->
     exists c, GetBatchMetadata tracker i = inl c /\ MessageCount c < msgCount) ->
  outcome_of (searchLoop fuel tracker msgCount low high) = Diverge.
Proof.
  induction fuel as [|fuel IH]; intros low Hlow Hhigh H0 Hmod Hbelow; [reflexivity|].
  rewrite searchLoop_step.
  rewrite U64_add_small by u64_lia.
  pose proof (Z.div_mod (low + high) 2 ltac:(lia)) as Hd.
  pose proof (Z.mod_pos_bound (low + high) 2 ltac:(lia)) as Hm.
  set (mid := (low + high) / 2) in *.
  assert (Hmid : low0 <= mid <= high) by lia.
  destruct (Hbelow mid Hmid) as (c & Ec & Hc). rewrite Ec, outcome_of_after.
  destruct (Z.ltb_spec (MessageCount c) msgCount) as [_|Hge]; [|lia].
  rewrite U64_add_small by u64_lia.
  apply IH; try lia. exact Hbelow.
Qed.

(** X10. When every batch of the search interval has a known count below
    the message count (the message lies after the interval), the loop of
    [findBatchFromMessageCount] has not returned after any number of
    iterations: the locator has no exit for a lower bound past the upper
    bound. *)
Theorem findBatchFromMessageCount_past_interval (fuel : nat)
    (b : BlockChallengeBackend) (msgCount low high : Z) :
  msgCount <> 0 ->
  search_range b = Some (low, high) ->
  0 <= low <= high -> 2 * high + 1 < U64.modulus ->
  (forall i, low <= i <= high ->
     exists c, GetBatchMetadata (inboxTracker b) i = inl c
               /\ MessageCount c < msgCount) ->
  outcome_of (findBatchFromMessageCount fuel b msgCount) = Diverge.
Proof.
  intros Hm Hr Hlh Hmod Hbelow.
  rewrite (findBatchFromMessageCount_search _ _ _ _ _ Hm Hr).
  apply (searchLoop_all_below _ _ low); try lia. exact Hbelow.
Qed.

(** Message count 16 on the three-batch challenge, whose counts end at 15. *)
Lemma findBatchFromMessageCount_past_interval_witness :
  outcome_of (findBatchFromMessageCount 1000 Scenario.backend 16) = Diverge.
Proof.
  apply (findBatchFromMessageCount_past_interval 1000 Scenario.backend 16 0 2).
  - lia.
  - reflexivity.
  - lia.
  - rewrite U64_modulus_value. lia.
  - intros i Hi. rewrite (three_batches_known i Hi).
    eexists; split; [reflexivity|]. cbn [MessageCount].
    assert (Hcases : i = 0 \/ i = 1 \/ i = 2) by lia.
    destruct Hcases as [->|[->| ->]]; vm_compute; reflexivity.
Defined.

(** ** The state of a finished step *)





(** ** Step 0 of a challenge that starts after batch 0 *)

(** X12. A backend as the constructor leaves it for a challenge that starts
    after batch 0: the count of the batch before the start batch is the
    number of the start block, which is not 0. With known counts that do
    not decrease and batch numbers below 2^63, [getInfoAtStep] fails for
    step 0 with the error of its own check on the locator, and so does
    every [SetRange] that starts at step 0 and runs its sub-queries. *)
Theorem getInfoAtStep_step_zero_of_later_start (fuel : nat)
    (b : BlockChallengeBackend) (meta : Z -> Z) (low high : Z) :
  0 < tooFarStartsAtPosition b ->
  U64.in_range (startBlock b) -> startBlock b <> 0 ->
  core.GetBlockByNumber (bc b) (startBlock b) <> None ->
  search_range b = Some (low, high) ->
  0 < low <= high -> 2 * high < U64.modulus ->
  (forall i, low - 1 <= i <= high ->
     GetBatchMetadata (inboxTracker b) i = inl {| MessageCount := meta i |}) ->
  (forall i j, low - 1 <= i <= j -> j <= high -> meta i <= meta j) ->
  meta (low - 1) = startBlock b ->
  (Z.to_nat (high - low) < fuel)%nat ->
  outcome_of (getInfoAtStep fuel b 0)
  = Fail (errors_New "findBatchFromMessageCount returned bad block")
  /\ forall end_,
       (startPosition b =? 0) && (endPosition b =? end_) = false ->
       result_of (SetRange fuel 0 end_ b)
       = Fail (errors_New "findBatchFromMessageCount returned bad block")
       /\ backend_after (SetRange fuel 0 end_ b) = b.
Proof.
  intros HT Hsb Hnz Hblock Hrange Hlh Hhi Hknown Hmono Hone Hfuel.
  assert (Hstep : outcome_of (getInfoAtStep fuel b 0)
                  = Fail (errors_New "findBatchFromMessageCount returned bad block")).
  { unfold getInfoAtStep.
    destruct (Z.leb_spec (tooFarStartsAtPosition b) 0) as [Hle|_]; [lia|].
    assert (Hm : U64.add (startBlock b) 0 = startBlock b).
    { unfold U64.add. rewrite Z.add_0_r. now apply U64_wrap_small. }
    rewrite Hm.
    cbn [mbind mret Eff_Monad]. unfold lookup. rewrite Eff_bind_Ret, outcome_of_after.
    destruct (core.GetBlockByNumber (bc b) (startBlock b)) as [blk|];
      [clear Hblock | now destruct Hblock].
    rewrite (findBatchFromMessageCount_search _ _ _ _ _ Hnz Hrange).
    destruct (searchLoop_finds (inboxTracker b) (startBlock b) meta fuel low high)
      as (i & q & E & Hi & _ & _); auto; try lia.
    { intros k Hk. apply Hknown; lia. }
    { intros k j Hk Hj. apply Hmono; lia. }
    { rewrite <- Hone. apply Hmono; lia. }
    rewrite E, Eff_bind_Ret, outcome_of_after.
    destruct (Z.ltb_spec 0 i) as [_|Hi0]; [|lia].
    rewrite U64_sub_small by u64_lia.
    rewrite (Hknown (i - 1)) by lia. unfold call. rewrite Eff_bind_Ret.
    cbn [MessageCount].
    pose proof (Hmono (low - 1) (i - 1) ltac:(lia) ltac:(lia)) as Hprev.
    destruct (Z.leb_spec (startBlock b) (meta (i - 1))) as [_|Hlt]; [|lia].
    reflexivity. }
  split; [exact Hstep|].
  intros end_ G.
  destruct (getInfoAtStep fuel b 0) as [o q] eqn:E.
  unfold outcome_of in Hstep; cbn [fst] in Hstep. subst o.
  unfold SetRange. cbn [mbind mret Method_Monad]. unfold Method_bind, this, reading.
  rewrite G, E. split; reflexivity.
Qed.

Lemma getInfoAtStep_step_zero_of_later_start_witness :
  outcome_of (getInfoAtStep 64 Scenario.later_start 0)
  = Fail (errors_New "findBatchFromMessageCount returned bad block")
  /\ forall end_,
       (startPosition Scenario.later_start =? 0)
       && (endPosition Scenario.later_start =? end_) = false ->
       result_of (SetRange 64 0 end_ Scenario.later_start)
       = Fail (errors_New "findBatchFromMessageCount returned bad block")
       /\ backend_after (SetRange 64 0 end_ Scenario.later_start) = Scenario.later_start.
Proof.
  apply (getInfoAtStep_step_zero_of_later_start 64 Scenario.later_start
           (Scenario.count_at [5; 10; 15]) 1 2).
  - cbn. lia.
  - unfold U64.in_range. rewrite U64_modulus_value. cbn. lia.
  - cbn. lia.
  - vm_compute. discriminate.
  - reflexivity.
  - lia.
  - rewrite U64_modulus_value. lia.
  - intros i Hi. apply three_batches_known. lia.
  - intros i j Hi Hj.
    destruct (Z.eq_dec i j) as [->|Hne]; [lia|].
    pose proof (three_batches_growing i j ltac:(lia) ltac:(lia)). lia.
  - reflexivity.
  - cbn. lia.
Defined.

(** The backend of the witness is the one the constructor builds. *)
Lemma later_start_constructed :
  outcome_of
    (NewBlockChallengeBackend (Scenario.chain 15 []) (Scenario.tracker [5; 10; 15])
       (Scenario.client (Scenario.gs 5 1 0) (Scenario.gs 15 3 0)) [])
  = Ret Scenario.later_start.
Proof. reflexivity. Qed.

(** ** What the backend never does *)

Lemma Eff_bind_no_panic {A B : Type} (m : Eff A) (f : A -> Eff B) :
  no_panic (outcome_of m) ->
  (forall a, no_panic (outcome_of (f a))) ->
  no_panic (outcome_of (Eff_bind m f)).
Proof.
  intros Hm Hf. destruct m as [[a|e|msg|] q]; cbn in *; try exact I; try contradiction.
  specialize (Hf a). destruct (f a) as [o q']. exact Hf.
Qed.

Lemma searchLoop_no_panic (tracker : InboxTracker) (msgCount : Z) (fuel : nat) :
  forall low high : Z,
  no_panic (outcome_of (searchLoop fuel tracker msgCount low high)).
Proof.
  induction fuel as [|fuel IH]; intros low high; [exact I|].
  rewrite searchLoop_step.
  destruct (GetBatchMetadata tracker (U64.add low high / 2)); [|exact I].
  rewrite outcome_of_after.
  destruct (_ <? _); [apply IH|].
  destruct (_ =? _); [exact I|].
  destruct (_ =? _); [exact I | apply IH].
Qed.

Lemma findBatchFromMessageCount_no_panic (fuel : nat) (b : BlockChallengeBackend)
    (msgCount : Z) :
  no_panic (outcome_of (findBatchFromMessageCount fuel b msgCount)).
Proof.
  unfold findBatchFromMessageCount.
  destruct (msgCount =? 0); [exact I|].
  destruct (PosInBatch (endGs b) =? 0); [|apply searchLoop_no_panic].
  destruct (Batch (endGs b) =? 0); [exact I | apply searchLoop_no_panic].
Qed.

Lemma getInfoAtStep_no_panic (fuel : nat) (b : BlockChallengeBackend) (position : Z) :
  no_panic (outcome_of (getInfoAtStep fuel b position)).
Proof.
  unfold getInfoAtStep.
  destruct (tooFarStartsAtPosition b <=? position); [exact I|].
  cbn [mbind mret Eff_Monad].
  apply Eff_bind_no_panic; [exact I|].
  intros [block|]; [|exact I].
  apply Eff_bind_no_panic; [apply findBatchFromMessageCount_no_panic|].
  intros batch.
  apply Eff_bind_no_panic; [|intros prev; exact I].
  destruct (0 <? batch); [|exact I].
  apply Eff_bind_no_panic.
  - unfold call. destruct (GetBatchMetadata _ _); exact I.
  - intros prev. destruct (_ <=? _); exact I.
Qed.

(** X13. In [GetHashAtStep], with a block chain and an inbox tracker that
    are there (not nil), the branch for an unknown block status is never
    taken: when [getInfoAtStep] returns a state, its status is Finished or
    TooFar and [GetHashAtStep] returns a hash, with the same queries; when
    [getInfoAtStep] returns an error, [GetHashAtStep] returns this error as
    it is, with the same queries; and in no case does the call end in the
    panic of that branch. *)
Theorem GetHashAtStep_unknown_status_unreachable
    (Keccak256Hash : list byte -> common.Hash)
    (fuel : nat) (b : BlockChallengeBackend) (position : Z) :
  (forall gs status q,
     getInfoAtStep fuel b position = (Ret (gs, status), q) ->
     (status = STATUS_FINISHED \/ status = STATUS_TOO_FAR)
     /\ exists h, GetHashAtStep Keccak256Hash fuel b position = (Ret h, q))
  /\ (forall e q,
        getInfoAtStep fuel b position = (Fail e, q) ->
        GetHashAtStep Keccak256Hash fuel b position = (Fail e, q))
  /\ (forall msg q,
        GetHashAtStep Keccak256Hash fuel b position <> (Panic msg, q)).
Proof.
  split; [|split].
  - intros gs status q E.
    pose proof (getInfoAtStep_status _ _ _ _ _ _ E) as Hs.
    split; [exact Hs|].
    unfold GetHashAtStep. cbn [mbind mret Eff_Monad]. rewrite E, Eff_bind_Ret.
    destruct Hs as [-> | ->]; eexists; unfold after; cbn [fst snd];
      rewrite app_nil_r; reflexivity.
  - intros e q E. unfold GetHashAtStep. cbn [mbind mret Eff_Monad].
    rewrite E. reflexivity.
  - intros msg q H.
    pose proof (getInfoAtStep_no_panic fuel b position) as Hn.
    unfold GetHashAtStep in H. cbn [mbind mret Eff_Monad] in H.
    destruct (getInfoAtStep fuel b position) as [[[gs status]|e|msg0|] q0] eqn:E;
      cbn in Hn; try contradiction; try discriminate H.
    rewrite Eff_bind_Ret in H.
    destruct (getInfoAtStep_status _ _ _ _ _ _ E) as [-> | ->]; discriminate H.
Qed.

(** ** More on range narrowing *)

(** X14. Whatever a call of [SetRange] does, the block chain, the inbox
    tracker, the start block number and the too-far boundary of the backend
    are the ones before the call. *)
Theorem SetRange_keeps_collaborators_and_boundary
    (fuel : nat) (b : BlockChallengeBackend) (start end_ : Z) :
  bc (backend_after (SetRange fuel start end_ b)) = bc b
  /\ inboxTracker (backend_after (SetRange fuel start end_ b)) = inboxTracker b
  /\ startBlock (backend_after (SetRange fuel start end_ b)) = startBlock b
  /\ tooFarStartsAtPosition (backend_after (SetRange fuel start end_ b))
     = tooFarStartsAtPosition b.
Proof.
  destruct ((startPosition b =? start) && (endPosition b =? end_)) eqn:G.
  - rewrite (SetRange_same_range _ _ _ _ G). repeat split.
  - unfold SetRange. cbn [mbind mret Method_Monad].
    unfold Method_bind, this, reading, assign. rewrite G.
    destruct (getInfoAtStep fuel b start) as [[[gs1 s1]|e|msg|] q1];
      try (repeat split; fail).
    destruct (getInfoAtStep fuel b end_) as [[[gs2 s2]|e|msg|] q2];
      try (repeat split; fail).
    destruct (s2 =? STATUS_FINISHED); repeat split.
Qed.

(** X15. A call of [SetRange] that runs its sub-queries hands on the error
    of the first sub-query that fails, as it is: if the sub-query for
    [start] fails, the one for [end] is not run; if the one for [end] fails,
    the queries are those of both. The backend is left as it was. *)
Theorem SetRange_error_propagation
    (fuel : nat) (b : BlockChallengeBackend) (start end_ : Z) :
  (startPosition b =? start) && (endPosition b =? end_) = false ->
  (forall e q,
     getInfoAtStep fuel b start = (Fail e, q) ->
     SetRange fuel start end_ b = (Fail e, b, q))
  /\ (forall r1 q1 e q2,
        getInfoAtStep fuel b start = (Ret r1, q1) ->
        getInfoAtStep fuel b end_ = (Fail e, q2) ->
        SetRange fuel start end_ b = (Fail e, b, q1 ++ q2)).
Proof.
  intros G. split.
  - intros e q E. unfold SetRange. cbn [mbind mret Method_Monad].
    unfold Method_bind, this, reading. rewrite G, E. reflexivity.
  - intros [gs1 s1] q1 e q2 E1 E2. unfold SetRange. cbn [mbind mret Method_Monad].
    unfold Method_bind, this, reading. rewrite G, E1, E2. reflexivity.
Qed.

Lemma SetRange_error_propagation_witness :
  SetRange 64 1 2 Scenario.pruned
  = (Fail (errors_New "failed to get block in block challenge"),
     Scenario.pruned,
     [QGetBlockByNumber 1; QGetBatchMetadata 1; QGetBatchMetadata 0]
     ++ [QGetBlockByNumber 2]).
Proof.
  refine (proj2 (SetRange_error_propagation 64 Scenario.pruned 1 2 eq_refl)
                (Scenario.gs 1 0 1, STATUS_FINISHED) _ _ _ _ _);
    reflexivity.
Defined.

(** ** The hash of a step that is too far *)

(** X16. For every position at or past the boundary, [GetHashAtStep]
    returns the Keccak-256 hash of the too-far literal, without a query:
    the same hash for every such position and every backend. *)
Theorem GetHashAtStep_too_far
    (Keccak256Hash : list byte -> common.Hash)
    (fuel : nat) (b : BlockChallengeBackend) (position : Z) :
  tooFarStartsAtPosition b <= position ->
  GetHashAtStep Keccak256Hash fuel b position = (Ret (Keccak256Hash too_far_input), []).
Proof.
  intros H. unfold GetHashAtStep. cbn [mbind mret Eff_Monad].
  rewrite (getInfoAtStep_too_far _ _ _ H). reflexivity.
Qed.

Lemma GetHashAtStep_too_far_witness :
  GetHashAtStep Scenario.digest 64 Scenario.backend 16
  = (Ret (Scenario.digest too_far_input), []).
Proof.
  apply (GetHashAtStep_too_far Scenario.digest 64 Scenario.backend 16).
  cbn. lia.
Defined.

(** ** The one step proof *)

Section OneStepProofFacts.

Variable Keccak256Hash : list byte -> common.Hash.
Variable TransactOpts : Type.
Variable Transaction : Type.
Variable ChallengeExecution :
  challengegen.BlockChallenge -> ChallengeExecutionArgs TransactOpts -> Transaction + error.

Lemma In_Transact_reads (args : ChallengeExecutionArgs TransactOpts)
    (q : list Query) (rest : list (Call TransactOpts)) :
  In (Transact args) (map Read q ++ rest) -> In (Transact args) rest.
Proof.
  intros H. apply in_app_or in H. destruct H as [H|H]; [|exact H].
  apply in_map_iff in H. destruct H as (x & Hx & _). discriminate Hx.
Qed.

Lemma not_In_Transact_reads (args : ChallengeExecutionArgs TransactOpts)
    (q : list Query) :
  ~ In (Transact args) (map Read q).
Proof.
  intros H. apply in_map_iff in H. destruct H as (x & Hx & _). discriminate Hx.
Qed.

(** X17. [IssueOneStepProof] submits a transaction only after it has bound
    the contract, found the segment and resolved both steps, [position] and
    [position + 1] (in uint64 arithmetic), without error. The transaction is
    the last call and the only one; besides the caller's [auth], [Start],
    [End - Start], the raw segments and the segment index, it carries the
    two statuses, each Finished or TooFar, and the [Hash] of the two global
    states, not the block-state hashes of [GetHashAtStep]. *)
Theorem IssueOneStepProof_transacts_after_both_steps
    (fuel : nat) (b : BlockChallengeBackend) (client : bind.ContractBackend)
    (auth : TransactOpts) (challenge : list byte)
    (oldState : validator.ChallengeState) (startSegment : Z)
    (args : ChallengeExecutionArgs TransactOpts) :
  In (Transact args)
     (snd (IssueOneStepProof Keccak256Hash TransactOpts Transaction ChallengeExecution
             fuel b client auth challenge oldState startSegment)) ->
  exists con segment gs0 s0 q0 gs1 s1 q1,
    bind.NewBlockChallenge client challenge = inl con
    /\ 0 <= startSegment
    /\ nth_error (validator.Segments oldState) (Z.to_nat startSegment) = Some segment
    /\ getInfoAtStep fuel b (validator.Position segment) = (Ret (gs0, s0), q0)
    /\ getInfoAtStep fuel b (U64.add (validator.Position segment) 1)
       = (Ret (gs1, s1), q1)
    /\ (s0 = STATUS_FINISHED \/ s0 = STATUS_TOO_FAR)
    /\ (s1 = STATUS_FINISHED \/ s1 = STATUS_TOO_FAR)
    /\ args = {| arg_auth := auth;
                 arg_start := validator.Start oldState;
                 arg_length := validator.End_ oldState - validator.Start oldState;
                 arg_rawSegments := validator.RawSegments oldState;
                 arg_segment := startSegment;
                 arg_machineStatuses := (s0, s1);
                 arg_globalStateHashes :=
                   (GoGlobalState_Hash Keccak256Hash gs0,
                    GoGlobalState_Hash Keccak256Hash gs1) |}
    /\ snd (IssueOneStepProof Keccak256Hash TransactOpts Transaction ChallengeExecution
              fuel b client auth challenge oldState startSegment)
       = Read (QNewBlockChallenge challenge) :: map Read (q0 ++ q1) ++ [Transact args].
Proof.
  remember (snd (IssueOneStepProof Keccak256Hash TransactOpts Transaction
                   ChallengeExecution fuel b client auth challenge oldState
                   startSegment)) as calls eqn:Hcalls.
  intros H.
  unfold IssueOneStepProof in Hcalls. cbn [mbind mret Tx_Monad] in Hcalls.
  unfold reads, call, segment_at, transact in Hcalls.
  destruct (bind.NewBlockChallenge client challenge) as [con|e] eqn:Econ.
  2:{ cbn in Hcalls. subst calls. destruct H as [H|[]]. discriminate H. }
  cbn [fst snd map Tx_bind] in Hcalls.
  destruct (Z.ltb_spec startSegment 0) as [Hneg|Hnonneg].
  { cbn in Hcalls. subst calls. destruct H as [H|[]]. discriminate H. }
  destruct (nth_error (validator.Segments oldState) (Z.to_nat startSegment))
    as [segment|] eqn:Eseg.
  2:{ cbn in Hcalls. subst calls. destruct H as [H|[]]. discriminate H. }
  cbn [Tx_bind] in Hcalls. cbv zeta in Hcalls.
  destruct (getInfoAtStep fuel b (validator.Position segment))
    as [[[gs0 s0]|e0|msg0|] q0] eqn:E0; cbn [fst snd Tx_bind app] in Hcalls.
  2,3,4: (subst calls; destruct H as [H|H]; [discriminate H|];
          now apply not_In_Transact_reads in H).
  destruct (getInfoAtStep fuel b (U64.add (validator.Position segment) 1))
    as [[[gs1 s1]|e1|msg1|] q1] eqn:E1; cbn [fst snd Tx_bind app] in Hcalls.
  2,3,4: (subst calls; destruct H as [H|H]; [discriminate H|];
          rewrite <- map_app in H; now apply not_In_Transact_reads in H).
  set (sent := {| arg_auth := auth;
                  arg_start := validator.Start oldState;
                  arg_length := validator.End_ oldState - validator.Start oldState;
                  arg_rawSegments := validator.RawSegments oldState;
                  arg_segment := startSegment;
                  arg_machineStatuses := (s0, s1);
                  arg_globalStateHashes :=
                    (GoGlobalState_Hash Keccak256Hash gs0,
                     GoGlobalState_Hash Keccak256Hash gs1) |}) in *.
  assert (Hlist : calls = Read (QNewBlockChallenge challenge)
                          :: map Read (q0 ++ q1) ++ [Transact sent]).
  { destruct (ChallengeExecution con sent); cbn [fst snd app] in Hcalls;
      rewrite Hcalls, map_app, <- app_assoc; reflexivity. }
  assert (Hargs : args = sent).
  { rewrite Hlist in H. destruct H as [H|H]; [discriminate H|].
    apply In_Transact_reads in H. destruct H as [H|[]].
    injection H as H. symmetry; exact H. }
  exists con, segment, gs0, s0, q0, gs1, s1, q1.
  split; [reflexivity|]. split; [exact Hnonneg|]. split; [reflexivity|].
  split; [exact E0|]. split; [exact E1|].
  split; [exact (getInfoAtStep_status _ _ _ _ _ _ E0)|].
  split; [exact (getInfoAtStep_status _ _ _ _ _ _ E1)|].
  split; [exact Hargs|]. rewrite Hargs. exact Hlist.
Qed.

End OneStepProofFacts.

(** The proof for the second segment of the last steps of the three-batch
    challenge: step 15 is in batch 2, step 16 is too far. *)
Lemma IssueOneStepProof_transacts_after_both_steps_witness :
  exists con segment gs0 s0 q0 gs1 s1 q1,
    bind.NewBlockChallenge
      (Scenario.client (Scenario.gs 0 0 0) (Scenario.gs 15 3 0)) [] = inl con
    /\ 0 <= 1
    /\ nth_error (validator.Segments Scenario.last_steps) (Z.to_nat 1) = Some segment
    /\ getInfoAtStep 64 Scenario.backend (validator.Position segment)
       = (Ret (gs0, s0), q0)
    /\ getInfoAtStep 64 Scenario.backend (U64.add (validator.Position segment) 1)
       = (Ret (gs1, s1), q1)
    /\ (s0 = STATUS_FINISHED \/ s0 = STATUS_TOO_FAR)
    /\ (s1 = STATUS_FINISHED \/ s1 = STATUS_TOO_FAR)
    /\ Scenario.proof_args
       = {| arg_auth := tt;
            arg_start := validator.Start Scenario.last_steps;
            arg_length := validator.End_ Scenario.last_steps
                          - validator.Start Scenario.last_steps;
            arg_rawSegments := validator.RawSegments Scenario.last_steps;
            arg_segment := 1;
            arg_machineStatuses := (s0, s1);
            arg_globalStateHashes :=
              (GoGlobalState_Hash Scenario.digest gs0,
               GoGlobalState_Hash Scenario.digest gs1) |}
    /\ snd (IssueOneStepProof Scenario.digest unit Z Scenario.accept 64
              Scenario.backend
              (Scenario.client (Scenario.gs 0 0 0) (Scenario.gs 15 3 0))
              tt [] Scenario.last_steps 1)
       = Read (QNewBlockChallenge [])
         :: map Read (q0 ++ q1) ++ [Transact Scenario.proof_args].
Proof.
  apply (IssueOneStepProof_transacts_after_both_steps
           Scenario.digest unit Z Scenario.accept 64 Scenario.backend
           (Scenario.client (Scenario.gs 0 0 0) (Scenario.gs 15 3 0))
           tt [] Scenario.last_steps 1 Scenario.proof_args).
  vm_compute.
  repeat (try (left; reflexivity); right).
Defined.

(** ** From construction to the invariant of the locator *)

(** X18. A backend that the constructor returns for uint64 batch numbers:
    the locator searches the batches from the start batch to the one before
    the end batch, an interval that is not empty; if [c], the count of that
    last batch, and [startBlock <= c] are below 2^64 - 1, the boundary is
    [c - startBlock + 1] without wrap-around, and every step before it has a
    message count [startBlock + position] of at most [c]: the upper half of
    the invariant of the search loop holds for it. *)
Theorem NewBlockChallengeBackend_steps_within_last_batch
    (bc0 : core.BlockChain) (tracker : InboxTracker)
    (client : bind.ContractBackend) (challengeAddr : list byte)
    (b : BlockChallengeBackend) (q : list Query) (c : Z) :
  NewBlockChallengeBackend bc0 tracker client challengeAddr = (Ret b, q) ->
  0 <= Batch (startGs b) -> Batch (endGs b) < U64.modulus ->
  GetBatchMetadata tracker (Batch (endGs b) - 1) = inl {| MessageCount := c |} ->
  0 <= startBlock b <= c -> c < U64.modulus - 1 ->
  search_range b = Some (Batch (startGs b), Batch (endGs b) - 1)
  /\ Batch (startGs b) <= Batch (endGs b) - 1
  /\ tooFarStartsAtPosition b = c - startBlock b + 1
  /\ forall position, 0 <= position < tooFarStartsAtPosition b ->
       U64.add (startBlock b) position = startBlock b + position
       /\ startBlock b + position <= c.
Proof.
  intros E Hlow Hhigh Hc Hsb Hcmax.
  destruct (NewBlockChallengeBackend_Ret_inv _ _ _ _ _ _ E)
    as (_ & _ & _ & _ & _ & Hepos & Hadv & _ & _ & _ & c' & Hc' & _ & HT).
  rewrite U64_sub_small in Hc' by lia.
  rewrite Hc in Hc'. injection Hc' as <-.
  assert (HT' : tooFarStartsAtPosition b = c - startBlock b + 1).
  { rewrite HT. rewrite U64_sub_small by lia. apply U64_add_small; lia. }
  split.
  { unfold search_range. rewrite Hepos. change (0 =? 0) with true. cbv iota.
    destruct (Z.eqb_spec (Batch (endGs b)) 0) as [Hz|_]; [lia|].
    rewrite U64_sub_small by lia. reflexivity. }
  split; [lia|]. split; [exact HT'|].
  intros position Hp. rewrite HT' in Hp.
  split; [apply U64_add_small; lia | lia].
Qed.

Lemma NewBlockChallengeBackend_steps_within_last_batch_witness :
  search_range Scenario.backend
  = Some (Batch (startGs Scenario.backend), Batch (endGs Scenario.backend) - 1)
  /\ Batch (startGs Scenario.backend) <= Batch (endGs Scenario.backend) - 1
  /\ tooFarStartsAtPosition Scenario.backend = 15 - startBlock Scenario.backend + 1
  /\ forall position, 0 <= position < tooFarStartsAtPosition Scenario.backend ->
       U64.add (startBlock Scenario.backend) position
       = startBlock Scenario.backend + position
       /\ startBlock Scenario.backend + position <= 15.
Proof.
  apply (NewBlockChallengeBackend_steps_within_last_batch
           (Scenario.chain 15 []) (Scenario.tracker [5; 10; 15])
           (Scenario.client (Scenario.gs 0 0 0) (Scenario.gs 15 3 0)) []
           Scenario.backend
           [QNewBlockChallenge []; QGetStartGlobalState;
            QGetBlockByHash (Scenario.blockHash 0); QGetEndGlobalState;
            QGetBatchMetadata 2; QGetBlockByNumber 15]
           15).
  - reflexivity.
  - cbn. lia.
  - rewrite U64_modulus_value. cbn. lia.
  - reflexivity.
  - cbn. lia.
  - rewrite U64_modulus_value. lia.
Defined.

(** ** Narrowing keeps the backend consistent *)







